(** * Music assignment tracker: the browser client

    A shallow embedding of [public/index.js] and [public/dash-teacher.js]:
    the values the scripts exchange with the server, the JSON text they keep
    in the [APP_TOKEN] cookie, the page state they mutate and the event
    handlers they register, followed by the properties of the client
    session manager. *)

From Stdlib Require Import ZArith NArith String Ascii List DecimalN DecimalString Lia.
From stdpp Require Import gmap strings list.

Local Open Scope string_scope.
#[local] Arguments String.append !s1 s2 : simpl nomatch.

(** ** JSON values

    Response bodies, the session token and the cookie payload are JSON
    values.  Numbers are the integers, strings are sequences of 8-bit code
    units; an object is the list of its members in enumeration order.
    JavaScript holds the integers exactly below 2^53 in absolute value and
    prints them in full below 10^21: on those and on 8-bit strings the
    printer and the parser below follow [JSON.stringify] and [JSON.parse];
    numbers with a fraction or an exponent and wider characters are outside
    this type, and what depends on them is stated over [TokenCookie]. *)

Unset Elimination Schemes.
Inductive json : Type :=
| JNull
| JBool (b : bool)
| JNum (n : Z)
| JStr (s : string)
| JArr (items : list json)
| JObj (members : list (string * json)).
Set Elimination Schemes.

(** The result of a property read or of [.val()]: [None] is [undefined]. *)
Abbreviation jsval := (option json).

Definition dquote : ascii := "034"%char.
Definition backslash : ascii := "092"%char.

Module Json.

(** Well-formed values: no object lists a key twice, at any depth.  A
    JavaScript object cannot hold a key twice, so every value the runtime
    can build is well formed. *)
Fixpoint wf (v : json) : Prop :=
  match v with
  | JArr l => (fix all (l : list json) : Prop :=
                 match l with
                 | [] => True
                 | x :: r => wf x /\ all r
                 end) l
  | JObj m => NoDup (map fst m) /\
              (fix all (m : list (string * json)) : Prop :=
                 match m with
                 | [] => True
                 | kv :: r => wf (snd kv) /\ all r
                 end) m
  | _ => True
  end.

(** *** Decimal integers *)

Definition print_N (n : N) : string :=
  DecimalString.NilEmpty.string_of_uint (N.to_uint n).

Definition print_Z (z : Z) : string :=
  match z with
  | Z0 => "0"
  | Zpos p => print_N (Npos p)
  | Zneg p => String "-" (print_N (Npos p))
  end.

Definition digit_of (c : ascii) : option (Decimal.uint -> Decimal.uint) :=
  match c with
  | "0"%char => Some Decimal.D0
  | "1"%char => Some Decimal.D1
  | "2"%char => Some Decimal.D2
  | "3"%char => Some Decimal.D3
  | "4"%char => Some Decimal.D4
  | "5"%char => Some Decimal.D5
  | "6"%char => Some Decimal.D6
  | "7"%char => Some Decimal.D7
  | "8"%char => Some Decimal.D8
  | "9"%char => Some Decimal.D9
  | _ => None
  end.

Definition is_digit (c : ascii) : bool :=
  match digit_of c with Some _ => true | None => false end.

(** The longest run of digits at the head of the text. *)
Fixpoint scan_uint (s : string) : Decimal.uint * string :=
  match s with
  | EmptyString => (Decimal.Nil, s)
  | String c r =>
      match digit_of c with
      | Some D => let (d, r') := scan_uint r in (D d, r')
      | None => (Decimal.Nil, s)
      end
  end.

(** A digit run is a JSON integer when it is not empty and has no leading
    zero, that is when it is the decimal writing of its own value. *)
Definition read_uint (s : string) : option (N * string) :=
  let (d, r) := scan_uint s in
  if Decimal.uint_eq_dec d (N.to_uint (N.of_uint d))
  then Some (N.of_uint d, r) else None.

Definition parse_number (s : string) : option (json * string) :=
  match s with
  | String "-" r =>
      match read_uint r with
      | Some (n, r') => Some (JNum (- Z.of_N n), r')
      | None => None
      end
  | _ =>
      match read_uint s with
      | Some (n, r') => Some (JNum (Z.of_N n), r')
      | None => None
      end
  end.

(** *** String literals *)

(** The lower-case hexadecimal digit of a number below sixteen. *)
Definition hex_digit (n : N) : ascii :=
  if (n <? 10)%N then ascii_of_N (48 + n) else ascii_of_N (87 + n).

(** The value of a hexadecimal digit of either case. *)
Definition hex_value (c : ascii) : option N :=
  let n := N_of_ascii c in
  if (48 <=? n)%N && (n <=? 57)%N then Some (n - 48)%N
  else if (97 <=? n)%N && (n <=? 102)%N then Some (n - 87)%N
  else if (65 <=? n)%N && (n <=? 70)%N then Some (n - 55)%N
  else None.

(** [QuoteJSONString] on one code unit. *)
Definition escape_char (c : ascii) : string :=
  if Ascii.eqb c dquote then String backslash (String dquote "")
  else if Ascii.eqb c backslash then String backslash (String backslash "")
  else if Ascii.eqb c "008" then String backslash "b"
  else if Ascii.eqb c "012" then String backslash "f"
  else if Ascii.eqb c "010" then String backslash "n"
  else if Ascii.eqb c "013" then String backslash "r"
  else if Ascii.eqb c "009" then String backslash "t"
  else if (N_of_ascii c <? 32)%N then
    String backslash
      (String "u" (String "0" (String "0"
         (String (hex_digit (N_of_ascii c / 16))
            (String (hex_digit (N_of_ascii c mod 16)) "")))))
  else String c "".

Fixpoint escape (s : string) : string :=
  match s with
  | EmptyString => ""
  | String c r => escape_char c +:+ escape r
  end.

Definition quote (s : string) : string :=
  String dquote (escape s +:+ String dquote "").

Definition unescape_simple (e : ascii) : option ascii :=
  if Ascii.eqb e dquote then Some dquote
  else if Ascii.eqb e backslash then Some backslash
  else if Ascii.eqb e "/" then Some "/"%char
  else if Ascii.eqb e "b" then Some "008"%char
  else if Ascii.eqb e "f" then Some "012"%char
  else if Ascii.eqb e "n" then Some "010"%char
  else if Ascii.eqb e "r" then Some "013"%char
  else if Ascii.eqb e "t" then Some "009"%char
  else None.

(** The code unit written [\uh1h2h3h4], when it fits the 8-bit alphabet. *)
Definition unicode_escape (h1 h2 h3 h4 : ascii) : option ascii :=
  match hex_value h1, hex_value h2, hex_value h3, hex_value h4 with
  | Some a, Some b, Some c, Some d =>
      if (a =? 0)%N && (b =? 0)%N then Some (ascii_of_N (16 * c + d)) else None
  | _, _, _, _ => None
  end.

(** The characters of a string literal, after its opening quote, up to and
    including the closing quote. *)
Fixpoint parse_chars (s : string) : option (string * string) :=
  match s with
  | EmptyString => None
  | String c r =>
      if Ascii.eqb c dquote then Some ("", r)
      else if Ascii.eqb c backslash then
        match r with
        | EmptyString => None
        | String e r1 =>
            if Ascii.eqb e "u" then
              match r1 with
              | String h1 (String h2 (String h3 (String h4 r2))) =>
                  match unicode_escape h1 h2 h3 h4, parse_chars r2 with
                  | Some ch, Some (str, r') => Some (String ch str, r')
                  | _, _ => None
                  end
              | _ => None
              end
            else
              match unescape_simple e, parse_chars r1 with
              | Some ch, Some (str, r') => Some (String ch str, r')
              | _, _ => None
              end
        end
      else if (N_of_ascii c <? 32)%N then None
      else
        match parse_chars r with
        | Some (str, r') => Some (String c str, r')
        | None => None
        end
  end.

(** *** [JSON.stringify] *)

Fixpoint stringify (v : json) : string :=
  match v with
  | JNull => "null"
  | JBool true => "true"
  | JBool false => "false"
  | JNum n => print_Z n
  | JStr s => quote s
  | JArr l =>
      String "["
        (match l with
         | [] => ""
         | x :: r =>
             stringify x +:+
             (fix tail (r : list json) : string :=
                match r with
                | [] => ""
                | y :: r' => String "," (stringify y +:+ tail r')
                end) r
         end +:+ "]")
  | JObj m =>
      String "{"
        (match m with
         | [] => ""
         | (k, x) :: r =>
             quote k +:+ String ":" (stringify x) +:+
             (fix tail (r : list (string * json)) : string :=
                match r with
                | [] => ""
                | (k', y) :: r' =>
                    String "," (quote k' +:+ String ":" (stringify y) +:+ tail r')
                end) r
         end +:+ "}")
  end.

(** *** [JSON.parse] *)

Definition is_ws (c : ascii) : bool :=
  Ascii.eqb c " " || Ascii.eqb c "009" || Ascii.eqb c "010" || Ascii.eqb c "013".

Fixpoint skip_ws (s : string) : string :=
  match s with
  | EmptyString => s
  | String c r => if is_ws c then skip_ws r else s
  end.

(** The rest of a keyword ([null], [true], [false]) after its first letter. *)
Fixpoint expect (word : string) (v : json) (s : string) : option (json * string) :=
  match word with
  | EmptyString => Some (v, s)
  | String c w =>
      match s with
      | String c' r => if Ascii.eqb c c' then expect w v r else None
      | EmptyString => None
      end
  end.

(** Property definition of the object under construction: a repeated key
    keeps its place and takes the later value. *)
Fixpoint obj_set (k : string) (v : json) (m : list (string * json)) : list (string * json) :=
  match m with
  | [] => [(k, v)]
  | (k', v') :: r => if String.eqb k k' then (k, v) :: r else (k', v') :: obj_set k v r
  end.

Fixpoint parse_value (fuel : nat) (s : string) : option (json * string) :=
  match fuel with
  | O => None
  | S fuel' =>
      match skip_ws s with
      | EmptyString => None
      | String c r =>
          if Ascii.eqb c "n" then expect "ull" JNull r
          else if Ascii.eqb c "t" then expect "rue" (JBool true) r
          else if Ascii.eqb c "f" then expect "alse" (JBool false) r
          else if Ascii.eqb c dquote then
            match parse_chars r with
            | Some (str, r') => Some (JStr str, r')
            | None => None
            end
          else if Ascii.eqb c "[" then
            match skip_ws r with
            | String "]" r' => Some (JArr [], r')
            | _ =>
                match parse_elems fuel' r with
                | Some (l, r') => Some (JArr l, r')
                | None => None
                end
            end
          else if Ascii.eqb c "{" then
            match skip_ws r with
            | String "}" r' => Some (JObj [], r')
            | _ =>
                match parse_members fuel' [] r with
                | Some (m, r') => Some (JObj m, r')
                | None => None
                end
            end
          else parse_number (String c r)
      end
  end
with parse_elems (fuel : nat) (s : string) : option (list json * string) :=
  match fuel with
  | O => None
  | S fuel' =>
      match parse_value fuel' s with
      | None => None
      | Some (v, r) =>
          match skip_ws r with
          | String "," r' =>
              match parse_elems fuel' r' with
              | Some (l, r'') => Some (v :: l, r'')
              | None => None
              end
          | String "]" r' => Some ([v], r')
          | _ => None
          end
      end
  end
with parse_members (fuel : nat) (acc : list (string * json)) (s : string)
  : option (list (string * json) * string) :=
  match fuel with
  | O => None
  | S fuel' =>
      match skip_ws s with
      | String c r =>
          if Ascii.eqb c dquote then
            match parse_chars r with
            | None => None
            | Some (k, r1) =>
                match skip_ws r1 with
                | String ":" r2 =>
                    match parse_value fuel' r2 with
                    | None => None
                    | Some (v, r3) =>
                        match skip_ws r3 with
                        | String "," r4 => parse_members fuel' (obj_set k v acc) r4
                        | String "}" r4 => Some (obj_set k v acc, r4)
                        | _ => None
                        end
                    end
                | _ => None
                end
            end
          else None
      | EmptyString => None
      end
  end.

(** [JSON.parse]: [None] stands for the [SyntaxError] it throws. *)
Definition parse (s : string) : option json :=
  match parse_value (String.length s) s with
  | Some (v, r) => match skip_ws r with EmptyString => Some v | _ => None end
  | None => None
  end.

(** *** The layout of the text

    Notions used to state that a text is read back as the value it was
    written from. *)

(** What may follow a number in a text: anything but a digit. *)
Definition no_digit_ahead (s : string) : Prop :=
  match s with
  | EmptyString => True
  | String c _ => is_digit c = false
  end.

(** The text of the elements after the first, and of the members after the
    first, as [stringify] lays them out. *)
Fixpoint tail_items (r : list json) : string :=
  match r with
  | [] => ""
  | y :: r' => String "," (stringify y +:+ tail_items r')
  end.

Fixpoint tail_members (r : list (string * json)) : string :=
  match r with
  | [] => ""
  | (k, y) :: r' => String "," (quote k +:+ String ":" (stringify y) +:+ tail_members r')
  end.

(** The first character of a value's text. *)
Definition opens_value (c : ascii) : bool :=
  is_digit c || Ascii.eqb c "-" || Ascii.eqb c "n" || Ascii.eqb c "t" || Ascii.eqb c "f"
  || Ascii.eqb c dquote || Ascii.eqb c "[" || Ascii.eqb c "{".

(** A value round-trips when its text, followed by anything that does not
    extend a number, parses back to it and leaves what follows. *)
Definition round_trips (v : json) : Prop :=
  wf v -> forall fuel rest,
    String.length (stringify v) <= fuel -> no_digit_ahead rest ->
    parse_value fuel (stringify v +:+ rest) = Some (v, rest).

Definition starts_value (s : string) : Prop :=
  match s with
  | EmptyString => False
  | String c _ => opens_value c = true
  end.

End Json.

(** ** Coercions and comparisons of the scripts *)

(** [ToString], as applied by template literals and by [+] on a string. *)
Fixpoint to_string (v : json) : string :=
  match v with
  | JNull => "null"
  | JBool true => "true"
  | JBool false => "false"
  | JNum n => Json.print_Z n
  | JStr s => s
  | JArr l =>
      (fix join (l : list json) : string :=
         match l with
         | [] => ""
         | x :: r =>
             match x with JNull => "" | _ => to_string x end +:+
             match r with [] => "" | _ :: _ => String "," (join r) end
         end) l
  | JObj _ => "[object Object]"
  end.

Definition ToString (v : jsval) : string :=
  match v with
  | None => "undefined"
  | Some j => to_string j
  end.

(** [a === b] when one side is a primitive: arrays and objects are never
    identical to a value obtained elsewhere. *)
Definition strict_eq (a b : jsval) : bool :=
  match a, b with
  | None, None => true
  | Some JNull, Some JNull => true
  | Some (JBool x), Some (JBool y) => Bool.eqb x y
  | Some (JNum x), Some (JNum y) => Z.eqb x y
  | Some (JStr x), Some (JStr y) => String.eqb x y
  | _, _ => false
  end.

(** A string in a condition is true unless it is [undefined] or empty. *)
Definition truthy (s : option string) : bool :=
  match s with
  | None => false
  | Some str => negb (String.eqb str "")
  end.

Inductive js_error := TypeError | SyntaxError.

Inductive outcome (A : Type) : Type :=
| Done (a : A)
| Thrown (e : js_error).
Arguments Done {A} a.
Arguments Thrown {A} e.

Fixpoint assoc (k : string) (m : list (string * json)) : jsval :=
  match m with
  | [] => None
  | (k', v) :: r => if String.eqb k k' then Some v else assoc k r
  end.

(** [v.k] for a property name [k] that is neither [length], an index, nor
    inherited ([authToken], [message], [location]): reading it from [null]
    throws, from an object it is the member or [undefined], from any other
    value it is [undefined]. *)
Definition get_prop (k : string) (v : json) : outcome jsval :=
  match v with
  | JNull => Thrown TypeError
  | JObj m => Done (assoc k m)
  | _ => Done None
  end.

(** [o.k] where [o] itself may be [undefined]. *)
Definition get_prop_of (k : string) (o : jsval) : outcome jsval :=
  match o with
  | None => Thrown TypeError
  | Some v => get_prop k v
  end.

(** An object literal: members whose value is [undefined] are left out by
    [JSON.stringify]. *)
Fixpoint literal (fields : list (string * jsval)) : list (string * json) :=
  match fields with
  | [] => []
  | (k, Some v) :: r => (k, v) :: literal r
  | (_, None) :: r => literal r
  end.

(** ** Data exchanged with the server *)

Record Assignment := {
  assignmentName : jsval;
  assignmentDate : jsval
}.

Record User := {
  id : jsval;
  username : jsval;
  isAdmin : jsval;
  Assignments : list Assignment
}.

(** The [jqXHR] handed to an error callback. *)
Record Xhr := {
  status : Z;
  responseJSON : jsval
}.

(** The body of a successful response, already decoded by [$.ajax]: a JSON
    value, the users list of [GET /api/users], or the user returned by
    [POST /api/users/:id]. *)
Inductive Body :=
| BJson (v : json)
| BUsers (l : list User)
| BUser (u : User).

Inductive Response :=
| Success (b : Body)
| Failure (e : Xhr).

Record Request := {
  type : string;
  url : string;
  headers : list (string * string);
  data : option string;
  contentType : option string
}.

(** The pair of callbacks given to one [$.ajax] call, named after its
    [success] function. *)
Inductive Handler :=
| signUp_success
| login_success
| successful
| loadAuthorized
| studentUsers
| createList
| teacher_studentUsers
| teacher_createList
| loadUsers_success.

Record Call := {
  request : Request;
  handler : Handler;
  settled : option Response
}.

Inductive Script := index_js | dash_teacher_js.

(** The global [APP] of [index.js].  [LOGIN_INFO] is read by
    [dash-teacher.js]; the object literal does not define it and no script
    assigns it. *)
Record App := {
  JWT_TOKEN : json;
  lastAssignments : list json;
  LOGIN_INFO : jsval
}.

Inductive Logged :=
| LStr (s : string)
| LJson (v : json)
| LBody (b : Body)
| LXhr (e : Xhr)
| LApp (a : App)
| LTime.

(** The page as the scripts see it: form fields read by [.val()], element
    contents written by [.html()], [.append()] and [.empty()], and the
    elements hidden by [.hide()], all keyed by selector. *)
Record Dom := {
  inputs : gmap string string;
  content : gmap string (list string);
  hidden : gset string
}.

Record Browser := {
  APP : App;
  cookies : gmap string string;
  dom : Dom;
  href : string;
  console : list (list Logged);
  calls : list Call;
  listening : option Script
}.

Definition set_APP (a : App) (st : Browser) : Browser :=
  {| APP := a; cookies := cookies st; dom := dom st; href := href st;
     console := console st; calls := calls st; listening := listening st |}.
Definition set_cookies (c : gmap string string) (st : Browser) : Browser :=
  {| APP := APP st; cookies := c; dom := dom st; href := href st;
     console := console st; calls := calls st; listening := listening st |}.
Definition set_dom (d : Dom) (st : Browser) : Browser :=
  {| APP := APP st; cookies := cookies st; dom := d; href := href st;
     console := console st; calls := calls st; listening := listening st |}.
Definition set_href (h : string) (st : Browser) : Browser :=
  {| APP := APP st; cookies := cookies st; dom := dom st; href := h;
     console := console st; calls := calls st; listening := listening st |}.
Definition set_console (c : list (list Logged)) (st : Browser) : Browser :=
  {| APP := APP st; cookies := cookies st; dom := dom st; href := href st;
     console := c; calls := calls st; listening := listening st |}.
Definition set_calls (c : list Call) (st : Browser) : Browser :=
  {| APP := APP st; cookies := cookies st; dom := dom st; href := href st;
     console := console st; calls := c; listening := listening st |}.
Definition set_listening (l : option Script) (st : Browser) : Browser :=
  {| APP := APP st; cookies := cookies st; dom := dom st; href := href st;
     console := console st; calls := calls st; listening := l |}.

Definition set_inputs (i : gmap string string) (d : Dom) : Dom :=
  {| inputs := i; content := content d; hidden := hidden d |}.
Definition set_content (c : gmap string (list string)) (d : Dom) : Dom :=
  {| inputs := inputs d; content := c; hidden := hidden d |}.
Definition set_hidden (h : gset string) (d : Dom) : Dom :=
  {| inputs := inputs d; content := content d; hidden := h |}.

(** The children of the elements matched by a selector. *)
Definition children (sel : string) (st : Browser) : list string :=
  default [] (content (dom st) !! sel).

(** ** Handlers as state transformers that may throw *)

Definition M (A : Type) : Type := Browser -> outcome A * Browser.

Definition ret {A} (a : A) : M A := fun st => (Done a, st).

Definition bind {A B} (m : M A) (k : A -> M B) : M B :=
  fun st =>
    match m st with
    | (Done a, st') => k a st'
    | (Thrown e, st') => (Thrown e, st')
    end.

Definition throw {A} (e : js_error) : M A := fun st => (Thrown e, st).

Definition lift {A} (o : outcome A) : M A := fun st => (o, st).

Definition modify (f : Browser -> Browser) : M unit := fun st => (Done tt, f st).

Definition reads {A} (f : Browser -> A) : M A := fun st => (Done (f st), st).

Declare Scope js_scope.
Delimit Scope js_scope with js.
Notation "'do' x <- m ; k" := (bind m (fun x => k))
  (at level 10, x name, m at level 100, k at level 200) : js_scope.
Notation "m ;; k" := (bind m (fun _ => k))
  (at level 100, k at level 200, right associativity) : js_scope.
Local Open Scope js_scope.

(** [for (let i = 0; i < l.length; i++) body(l[i])]. *)
Fixpoint for_each {A} (l : list A) (body : A -> M unit) : M unit :=
  match l with
  | [] => ret tt
  | x :: r => body x ;; for_each r body
  end.

(** *** The library calls the scripts make

    [$.ajax] records the request with its callbacks; the answer comes later,
    as an event.  The pages hold the elements the scripts select. *)

Module jQuery.

Definition ajax (r : Request) (h : Handler) : M unit :=
  modify (fun st =>
    set_calls (calls st ++ [{| request := r; handler := h; settled := None |}])%list st).

Definition val (sel : string) : M jsval :=
  reads (fun st => JStr <$> inputs (dom st) !! sel).

Definition html (sel : string) (items : list string) : M unit :=
  modify (fun st => set_dom (set_content (<[sel := items]> (content (dom st))) (dom st)) st).

Definition empty (sel : string) : M unit := html sel [].

Definition append (sel : string) (item : string) : M unit :=
  modify (fun st =>
    set_dom (set_content (<[sel := (children sel st ++ [item])%list]> (content (dom st)))
               (dom st)) st).

Definition hide (sel : string) : M unit :=
  modify (fun st => set_dom (set_hidden ({[sel]} ∪ hidden (dom st)) (dom st)) st).

Definition show (sel : string) : M unit :=
  modify (fun st => set_dom (set_hidden (hidden (dom st) ∖ {[sel]}) (dom st)) st).

End jQuery.

(** The cookie jar as [js-cookie] presents it: [set] stores a text under a
    name, [get] reads it back, [undefined] when there is none. *)
Module Cookies.

Definition set (name value : string) : M unit :=
  modify (fun st => set_cookies (<[name := value]> (cookies st)) st).

Definition get (name : string) : M (option string) :=
  reads (fun st => cookies st !! name).

End Cookies.

Definition console_log (entry : list Logged) : M unit :=
  modify (fun st => set_console (console st ++ [entry])%list st).

Definition location_assign (h : string) : M unit := modify (set_href h).

Definition set_JWT_TOKEN (t : json) (a : App) : App :=
  {| JWT_TOKEN := t; lastAssignments := lastAssignments a; LOGIN_INFO := LOGIN_INFO a |}.

Definition nl : string := String "010" "".
Definition dq : string := String dquote "".

Definition GET (u : string) : Request :=
  {| type := "GET"; url := u; headers := []; data := None; contentType := None |}.

(** ** [public/index.js] *)

Module Index.

Definition sendSignUp : M unit := location_assign "sign-up.html".

Definition sendLogin : M unit := location_assign "login.html".

(** [navDropDown]; [x] is the class name of the element [myTopnav], [None]
    when the page has no such element ([getElementById] gives [null]).  The
    result is the class name the element is left with. *)
Definition navDropDown (x : option string) : outcome string :=
  match x with
  | None => Thrown TypeError
  | Some className =>
      if String.eqb className "topnav" then Done (className +:+ " responsive")
      else Done "topnav"
  end.

Definition signUpForm : M bool :=
  do u <- jQuery.val "#username";
  do p <- jQuery.val "#password";
  do f <- jQuery.val "#firstName";
  do l <- jQuery.val "#lastName";
  do a <- jQuery.val "input[name=isAdmin]:checked";
  jQuery.ajax
    {| type := "POST";
       url := "/api/users";
       data := Some (Json.stringify (JObj (literal
         [("username", u); ("password", p); ("firstName", f); ("lastName", l);
          ("isAdmin", a);
          ("Assignments",
           Some (JArr [JObj [("assignmentName", JStr ""); ("assignmentDate", JStr "")]]))])));
       headers := [];
       contentType := Some "application/json" |}
    signUp_success ;;
  ret false.

Definition signUp_success_cb (response : Body) : M unit :=
  console_log [LBody response] ;;
  location_assign "login.html".

Definition signUp_error_cb (err : Xhr) : M unit :=
  do m1 <- lift (get_prop_of "message" (responseJSON err));
  jQuery.html ".js-errorsUser" ["Username " +:+ ToString m1 +:+ "!"] ;;
  do m2 <- lift (get_prop_of "message" (responseJSON err));
  jQuery.html ".js-errorsPass" ["Password " +:+ ToString m2 +:+ "!"] ;;
  do loc <- lift (get_prop_of "location" (responseJSON err));
  if strict_eq loc (Some (JStr "username")) then
    jQuery.hide ".js-errorsPass" ;;
    jQuery.show ".js-errorsUser"
  else
    do loc' <- lift (get_prop_of "location" (responseJSON err));
    if strict_eq loc' (Some (JStr "password")) then
      jQuery.hide ".js-errorsUser" ;;
      jQuery.show ".js-errorsPass"
    else ret tt.

Definition handleAddItem : M unit :=
  jQuery.ajax (GET "/api/users") studentUsers.

Definition studentUsers_cb (listUsers : list User) : M unit :=
  for_each listUsers (fun u =>
    do name <- jQuery.val "#username";
    if strict_eq (username u) name && strict_eq (isAdmin u) (Some (JBool false)) then
      do an <- jQuery.val "#js-assignment-name";
      do ad <- jQuery.val "#js-assignment-date";
      jQuery.ajax
        {| type := "POST";
           url := "/api/users/" +:+ ToString (id u);
           data := Some (Json.stringify (JObj (literal
             [("id", id u); ("assignmentName", an); ("assignmentDate", ad)])));
           headers := [];
           contentType := Some "application/json" |}
        createList
    else ret tt).

Definition item_html (userObj : User) (a : Assignment) : string :=
    nl +:+ "                            <li>" +:+ nl +:+
    "                            <span>Username: " +:+
    ToString (username userObj) +:+ " Assignment: " +:+
    ToString (assignmentName a) +:+ " Date: " +:+
    ToString (assignmentDate a) +:+ "</span>" +:+ nl +:+
    "                            <button class=" +:+ dq +:+
    "assignment-item-update" +:+ dq +:+ ">" +:+ nl +:+
    "                            <span class=" +:+ dq +:+ "button-label" +:+
    dq +:+ ">update</span>" +:+ nl +:+
    "                            </button>" +:+ nl +:+
    "                            <button class=" +:+ dq +:+
    "assignment-item-delete" +:+ dq +:+ ">" +:+ nl +:+
    "                            <span class=" +:+ dq +:+ "button-label" +:+
    dq +:+ ">delete</span>" +:+ nl +:+
    "                            </button><br></li>".

Definition createList_cb (userObj : User) : M unit :=
  jQuery.empty ".showAssignment" ;;
  for_each (Assignments userObj) (fun a =>
    jQuery.append ".showAssignment" (item_html userObj a)).

Definition createList_error_cb : M unit :=
  console_log [LStr "An error has occured!"].

Definition saveLoginToken : M unit :=
  do app <- reads APP;
  Cookies.set "APP_TOKEN" (Json.stringify (JWT_TOKEN app)).

Definition restoreLoginToken : M unit :=
  do savedTokenJSONStr <- Cookies.get "APP_TOKEN";
  if truthy savedTokenJSONStr then
    match Json.parse (default "" savedTokenJSONStr) with
    | None => throw SyntaxError
    | Some tok =>
        modify (fun st => set_APP (set_JWT_TOKEN tok (APP st)) st) ;;
        do app <- reads APP;
        console_log [LStr "LOGIN RESTORED, APP IS NOW"; LApp app]
    end
  else ret tt.

Definition loginForm : M unit :=
  do u <- jQuery.val "#username";
  do p <- jQuery.val "#password";
  jQuery.ajax
    {| type := "POST";
       url := "/api/auth/login";
       data := Some (Json.stringify (JObj (literal [("username", u); ("password", p)])));
       headers := [];
       contentType := Some "application/json" |}
    login_success.

Definition login_success_cb (response : json) : M bool :=
  modify (fun st => set_APP (set_JWT_TOKEN response (APP st)) st) ;;
  saveLoginToken ;;
  console_log [LJson response] ;;
  jQuery.ajax
    {| type := "GET";
       url := "/api/users/";
       headers := [];
       data := None;
       contentType := Some "application/json" |}
    successful ;;
  ret false.

Definition successful_cb (jsonRes : list User) : M unit :=
  for_each jsonRes (fun u =>
    do name <- jQuery.val "#username";
    if strict_eq (username u) name && strict_eq (isAdmin u) (Some (JBool true)) then
      do app <- reads APP;
      do tok <- lift (get_prop "authToken" (JWT_TOKEN app));
      jQuery.ajax
        {| type := "GET";
           url := "/api/protected";
           headers := [("Authorization", "Bearer " +:+ ToString tok)];
           data := None;
           contentType := None |}
        loadAuthorized
    else
      do name' <- jQuery.val "#username";
      if strict_eq (username u) name' && strict_eq (isAdmin u) (Some (JBool false))
      then ret tt
      else ret tt).

Definition successful_error_cb (err : Xhr) : M unit := console_log [LXhr err].

Definition loadAuthorized_cb : M unit := location_assign "teacher-dash.html".

Definition unauthorized_cb (error : Xhr) : M unit := console_log [LXhr error].

(** The handler of [submit] events on [body]; [name] is the [name]
    attribute of the submitted form. *)
Definition submit (name : option string) : M unit :=
  let target_is (n : string) := strict_eq (JStr <$> name) (Some (JStr n)) in
  (if target_is "signup" then signUpForm ;; ret tt else ret tt) ;;
  (if target_is "login" then loginForm else ret tt) ;;
  (if target_is "js-assignment-list-form" then
     console_log [LStr "You clicked ADD item!"] ;;
     handleAddItem
   else ret tt) ;;
  (if target_is "list-items" then console_log [LStr "You clicked LIST item!"]
   else ret tt).

(** The document-ready callback. *)
Definition ready : M unit :=
  console_log [LStr "APP STARTS"; LTime] ;;
  restoreLoginToken ;;
  modify (set_listening (Some index_js)).

End Index.

(** *** The token cookie, whatever the runtime's JSON

    [saveLoginToken] and [restoreLoginToken] use the runtime's JSON through
    [JSON.stringify] and [JSON.parse] alone.  Here they are with both as
    parameters, over any type [T] of token values and any type [Text] of
    cookie texts, acting on the part of the page the two functions touch:
    the session token, the cookie jar and the console. *)

Module TokenCookie.

Section Runtime.
Context {T Text : Type}.
Variable stringify : T -> Text.          (* [JSON.stringify] *)
Variable parse : Text -> option T.       (* [JSON.parse]; [None]: it throws *)
Variable falsy : Text -> bool.           (* the empty text *)

Record Session := {
  JWT_TOKEN : T;                         (* [APP.JWT_TOKEN] *)
  jar : gmap string Text;                (* the cookies *)
  restored : list T                      (* the tokens [LOGIN RESTORED] logged *)
}.

Definition set_JWT_TOKEN (t : T) (s : Session) : Session :=
  {| JWT_TOKEN := t; jar := jar s; restored := restored s |}.

Definition saveLoginToken (s : Session) : Session :=
  {| JWT_TOKEN := JWT_TOKEN s;
     jar := <["APP_TOKEN" := stringify (JWT_TOKEN s)]> (jar s);
     restored := restored s |}.

Definition restoreLoginToken (s : Session) : outcome unit * Session :=
  match jar s !! "APP_TOKEN" with
  | None => (Done tt, s)
  | Some savedTokenJSONStr =>
      if falsy savedTokenJSONStr then (Done tt, s)
      else
        match parse savedTokenJSONStr with
        | None => (Thrown SyntaxError, s)
        | Some tok =>
            (Done tt,
             {| JWT_TOKEN := tok; jar := jar s; restored := (restored s ++ [tok])%list |})
        end
  end.

End Runtime.

Arguments Session : clear implicits.

End TokenCookie.

(** ** [public/dash-teacher.js] *)

Module DashTeacher.

Definition handleAddItem : M unit :=
  jQuery.ajax (GET "/api/users") teacher_studentUsers.

Definition studentUsers_cb (listUsers : list User) : M unit :=
  for_each listUsers (fun u =>
    do name <- jQuery.val "#username";
    if strict_eq (username u) name && strict_eq (isAdmin u) (Some (JBool false)) then
      do an <- jQuery.val "#js-assignment-name";
      do ad <- jQuery.val "#js-assignment-date";
      do app <- reads APP;
      do tok <- lift (get_prop_of "authToken" (LOGIN_INFO app));
      jQuery.ajax
        {| type := "POST";
           url := "/api/users/" +:+ ToString (id u);
           data := Some (Json.stringify (JObj (literal
             [("id", id u); ("assignmentName", an); ("assignmentDate", ad)])));
           headers := [("Authorization", "Bearer " +:+ ToString tok)];
           contentType := Some "application/json" |}
        teacher_createList
    else ret tt).

Definition item_html (a : Assignment) : string :=
    nl +:+ "                            <li>" +:+ nl +:+
    "                            <span>Assignment: <b class=" +:+ dq +:+
    "assignmentColor" +:+ dq +:+ ">" +:+ ToString (assignmentName a) +:+
    "</b> Due Date: <b class=" +:+ dq +:+ "assignmentColor" +:+ dq +:+
    ">" +:+ ToString (assignmentDate a) +:+ "</b></span>" +:+ nl +:+
    "                            <button class=" +:+ dq +:+
    "assignment-item-update button-label" +:+ dq +:+ ">Edit</button>" +:+
    nl +:+ "                            <button class=" +:+ dq +:+
    "assignment-item-delete button-label" +:+ dq +:+ ">Delete</button>" +:+
    nl +:+ "                            </li>".

Definition createList_cb (userObj : User) : M unit :=
  jQuery.empty ".showAssignment" ;;
  jQuery.append ".showAssignment" ("<h3>" +:+ ToString (username userObj) +:+ "</h3>") ;;
  for_each (Assignments userObj) (fun a =>
    jQuery.append ".showAssignment" (item_html a)).

Definition createList_error_cb : M unit :=
  console_log [LStr "An error has occured!"].

Definition option_html (u : User) : string :=
  "<option value=" +:+ dq +:+ ToString (username u) +:+ dq +:+ ">" +:+
  ToString (username u) +:+ "</option>".

Definition loadUsers : M unit :=
  jQuery.ajax (GET "/api/users") loadUsers_success.

(** [list.push(...)] for every user whose [isAdmin] is [false]. *)
Fixpoint push_students (users : list User) (options : list string) : list string :=
  match users with
  | [] => options
  | u :: r =>
      if strict_eq (isAdmin u) (Some (JBool false))
      then push_students r (options ++ [option_html u])%list
      else push_students r options
  end.

Definition loadUsers_success_cb (users : list User) : M unit :=
  jQuery.html ".showStudents-js" (push_students users []).

(** The [submit] handler, but for the click handler it registers on [body]
    each time it runs: the page state holds no click handlers, and that
    registration is kept apart, in [registered] and [teacher_step] below. *)
Definition submit (name : option string) : M unit :=
  if strict_eq (JStr <$> name) (Some (JStr "js-assignment-list-form")) then
    console_log [LStr "You clicked ADD item!"] ;;
    handleAddItem
  else ret tt.

Definition ready : M unit :=
  loadUsers ;;
  modify (set_listening (Some dash_teacher_js)).

End DashTeacher.

(** ** The page and its events *)

Definition initial_APP : App :=
  {| JWT_TOKEN := JObj []; lastAssignments := []; LOGIN_INFO := None |}.

(** The page being shown.  [dash-teacher.js] reads [APP.LOGIN_INFO] without
    defining [APP]: what it finds there is given by the page that loads
    it, [None] when the page leaves it undefined. *)
Inductive Page :=
| index_page
| teacher_dash_page (login_info : jsval).

Definition script_of (p : Page) : Script :=
  match p with
  | index_page => index_js
  | teacher_dash_page _ => dash_teacher_js
  end.

Definition page_APP (p : Page) : App :=
  match p with
  | index_page => initial_APP
  | teacher_dash_page info =>
      {| JWT_TOKEN := JObj []; lastAssignments := []; LOGIN_INFO := info |}
  end.

(** A page that has just been fetched: the cookie jar and the address
    survive the navigation, everything else starts afresh. *)
Definition fresh_page (p : Page) (jar : gmap string string) (address : string) : Browser :=
  {| APP := page_APP p;
     cookies := jar;
     dom := {| inputs := ∅; content := ∅; hidden := ∅ |};
     href := address;
     console := [];
     calls := [];
     listening := None |}.

Inductive Button := signUpButton | loginButton.

Inductive Event :=
| Load (p : Page)                    (* page [p] is fetched and ready *)
| Input (sel : string) (v : string)  (* the user fills a form field *)
| Click (b : Button)                 (* a button wired to [sendSignUp] or [sendLogin] *)
| Submit (name : option string)      (* a form named [name] is submitted *)
| Reply (n : nat) (r : Response).    (* the [n]-th request is answered *)

(** The callback a response triggers.  Bodies are typed: [None] stands for
    a success body that is not of the kind the endpoint returns, on which
    the callbacks are not modelled (the code would run them on whatever it
    got).  A call without an [error] function ignores failures. *)
Definition deliver (h : Handler) (r : Response) : option (M unit) :=
  match h, r with
  | signUp_success, Success b => Some (Index.signUp_success_cb b)
  | signUp_success, Failure e => Some (Index.signUp_error_cb e)
  | login_success, Success (BJson v) => Some (Index.login_success_cb v ;; ret tt)
  | login_success, Failure _ => Some (ret tt)
  | successful, Success (BUsers l) => Some (Index.successful_cb l)
  | successful, Failure e => Some (Index.successful_error_cb e)
  | loadAuthorized, Success _ => Some Index.loadAuthorized_cb
  | loadAuthorized, Failure e => Some (Index.unauthorized_cb e)
  | studentUsers, Success (BUsers l) => Some (Index.studentUsers_cb l)
  | studentUsers, Failure _ => Some (ret tt)
  | createList, Success (BUser u) => Some (Index.createList_cb u)
  | createList, Failure _ => Some Index.createList_error_cb
  | teacher_studentUsers, Success (BUsers l) => Some (DashTeacher.studentUsers_cb l)
  | teacher_studentUsers, Failure _ => Some (ret tt)
  | teacher_createList, Success (BUser u) => Some (DashTeacher.createList_cb u)
  | teacher_createList, Failure _ => Some DashTeacher.createList_error_cb
  | loadUsers_success, Success (BUsers l) => Some (DashTeacher.loadUsers_success_cb l)
  | loadUsers_success, Failure _ => Some (ret tt)
  | _, _ => None
  end.

(** Running a handler to its end: an exception it does not catch stops it,
    and what it did before stays done. *)
Definition exec (m : M unit) (st : Browser) : Browser := snd (m st).

(** Answering a call. *)
Definition answer (r : Response) (c : Call) : Call :=
  {| request := request c; handler := handler c; settled := Some r |}.

Definition settle (n : nat) (r : Response) (st : Browser) : Browser :=
  set_calls (alter (answer r) n (calls st)) st.

Definition ready (s : Script) : M unit :=
  match s with
  | index_js => Index.ready
  | dash_teacher_js => DashTeacher.ready
  end.

Definition on_submit (s : Script) (name : option string) : M unit :=
  match s with
  | index_js => Index.submit name
  | dash_teacher_js => DashTeacher.submit name
  end.

Definition step (st : Browser) (ev : Event) : Browser :=
  match ev with
  | Load p => exec (ready (script_of p)) (fresh_page p (cookies st) (href st))
  | Input sel v => set_dom (set_inputs (<[sel := v]> (inputs (dom st))) (dom st)) st
  | Click signUpButton => exec Index.sendSignUp st
  | Click loginButton => exec Index.sendLogin st
  | Submit name =>
      match listening st with
      | Some s => exec (on_submit s name) st
      | None => st
      end
  | Reply n r =>
      match calls st !! n with
      | Some c =>
          match settled c, deliver (handler c) r with
          | None, Some m => exec m (settle n r st)
          | _, _ => st
          end
      | None => st
      end
  end.

Definition run (st : Browser) (evs : list Event) : Browser := foldl step st evs.

(** ** Sample data *)

Definition alice : User :=
  {| id := Some (JStr "u1"); username := Some (JStr "alice");
     isAdmin := Some (JBool false);
     Assignments := [{| assignmentName := Some (JStr "Essay 1");
                        assignmentDate := Some (JStr "2024-10-01") |}] |}.

Definition teacher : User :=
  {| id := Some (JStr "u0"); username := Some (JStr "teach");
     isAdmin := Some (JBool true); Assignments := [] |}.

Definition token : json := JObj [("authToken", JStr "abc.def.ghi")].

Definition login_trace : list Event :=
  [ Load index_page; Input "#username" "teach"; Input "#password" "pw";
    Submit (Some "login");
    Reply 0 (Success (BJson token));
    Reply 1 (Success (BUsers [alice; teacher])) ].

Definition add_item_trace : list Event :=
  [ Load index_page; Input "#username" "alice";
    Input "#js-assignment-name" "Essay 1"; Input "#js-assignment-date" "2024-10-01";
    Submit (Some "js-assignment-list-form");
    Reply 0 (Success (BUsers [teacher; alice])) ].

Definition bad_credentials : Xhr :=
  {| status := 401; responseJSON := Some (JObj [("message", JStr "Unauthorized")]) |}.

Definition forbidden : Xhr :=
  {| status := 403; responseJSON := Some (JObj [("message", JStr "Forbidden")]) |}.

Definition duplicate_username : Xhr :=
  {| status := 422;
     responseJSON := Some (JObj [("code", JNum 422); ("reason", JStr "ValidationError");
                                 ("message", JStr "already taken");
                                 ("location", JStr "username")]) |}.

(** ** The vocabulary of the properties *)

(** The part of the page [saveLoginToken] and [restoreLoginToken] touch, and
    the runtime of the model: its JSON printer and parser, the empty string
    as the one falsy text. *)
Definition session_of (st : Browser) : TokenCookie.Session json string :=
  {| TokenCookie.JWT_TOKEN := JWT_TOKEN (APP st);
     TokenCookie.jar := cookies st;
     TokenCookie.restored := [] |}.

Definition empty_text (s : string) : bool := String.eqb s "".


Definition probe_request (v : jsval) : Request :=
  {| type := "GET";
     url := "/api/protected";
     headers := [("Authorization", "Bearer " +:+ ToString v)];
     data := None;
     contentType := None |}.

Definition login_users_request : Request :=
  {| type := "GET";
     url := "/api/users/";
     headers := [];
     data := None;
     contentType := Some "application/json" |}.

(** [field] is written out inside [item]. *)
Definition shows (field item : string) : Prop :=
  exists before after, item = before +:+ field +:+ after.

Definition is_student (u : User) : bool := strict_eq (isAdmin u) (Some (JBool false)).

(** The handlers whose [error] function writes to the console. *)
Definition logs_failure (h : Handler) : Prop :=
  h = successful \/ h = loadAuthorized \/ h = createList \/ h = teacher_createList.

(** *** What a handler leaves in place, and what every page keeps true *)

(** [m] takes every state to one related to it by [R], whether it returns
    or throws. *)
Definition keeps (R : relation Browser) {A} (m : M A) : Prop :=
  forall st, R st (snd (m st)).

(** Cookies are only ever added or overwritten. *)
Definition cookies_grow : relation Browser :=
  fun st st' => forall k, is_Some (cookies st !! k) -> is_Some (cookies st' !! k).

(** The handler does not open the teacher dashboard. *)
Definition stays_out : relation Browser :=
  fun st st' => href st' = "teacher-dash.html" -> href st = "teacher-dash.html".

(** The handler sends nothing. *)
Definition sends_nothing : relation Browser :=
  fun st st' => calls st' = calls st.

(** [tok] is the answer to a login request made from this page. *)
Definition issued (cs : list Call) (tok : json) : Prop :=
  exists c, c ∈ cs /\ handler c = login_success /\ settled c = Some (Success (BJson tok)).

(** The calls whose shape owes nothing to the session token. *)
Definition plain (c : Call) : Prop :=
  match handler c with
  | successful | loadAuthorized => False
  | studentUsers | teacher_studentUsers | loadUsers_success => request c = GET "/api/users"
  | signUp_success | login_success | createList | teacher_createList =>
      type (request c) = "POST"
  end.

(** What is known of a call on a page whose requests are [cs] and whose
    session token is [cur]. *)
Definition well_sent (cs : list Call) (cur : json) (c : Call) : Prop :=
  match handler c with
  | successful => request c = login_users_request /\ issued cs cur
  | loadAuthorized =>
      exists tok v, issued cs tok /\ get_prop "authToken" tok = Done v
                    /\ request c = probe_request v
  | _ => plain c
  end.

Definition page_ok (st : Browser) : Prop :=
  Forall (well_sent (calls st) (JWT_TOKEN (APP st))) (calls st).

(** The handler only sends plain requests and leaves the token alone. *)
Definition sends_plain : relation Browser :=
  fun st st' =>
    JWT_TOKEN (APP st') = JWT_TOKEN (APP st) /\
    exists news, calls st' = (calls st ++ news)%list /\ Forall plain news.

(** The handler only sends probes carrying the token of the session. *)
Definition sends_probes : relation Browser :=
  fun st st' =>
    JWT_TOKEN (APP st') = JWT_TOKEN (APP st) /\
    exists news, calls st' = (calls st ++ news)%list /\
      Forall (fun c => handler c = loadAuthorized /\
                       exists v, get_prop "authToken" (JWT_TOKEN (APP st)) = Done v
                                 /\ request c = probe_request v) news.

(** ** The vocabulary of the further properties *)

(** *** The add-item flow *)

(** The user the teacher typed in, as [studentUsers] tests it. *)
Definition is_target (st : Browser) (u : User) : bool :=
  strict_eq (username u) (JStr <$> inputs (dom st) !! "#username")
  && strict_eq (isAdmin u) (Some (JBool false)).

Definition assignment_fields (st : Browser) (u : User) : list (string * jsval) :=
  [("id", id u);
   ("assignmentName", JStr <$> inputs (dom st) !! "#js-assignment-name");
   ("assignmentDate", JStr <$> inputs (dom st) !! "#js-assignment-date")].

(** The request that creates an assignment for [u], with the headers [hs]
    and the callbacks [h]. *)
Definition assignment_post (st : Browser) (hs : list (string * string)) (h : Handler)
    (u : User) : Call :=
  {| request :=
       {| type := "POST";
          url := "/api/users/" +:+ ToString (id u);
          data := Some (Json.stringify (JObj (literal (assignment_fields st u))));
          headers := hs;
          contentType := Some "application/json" |};
     handler := h;
     settled := None |}.

Definition bearer (v : jsval) : list (string * string) :=
  [("Authorization", "Bearer " +:+ ToString v)].

(** *** The login flow *)

(** The entry of the users list that makes [successful] probe. *)
Definition is_admin_match (st : Browser) (u : User) : bool :=
  strict_eq (username u) (JStr <$> inputs (dom st) !! "#username")
  && strict_eq (isAdmin u) (Some (JBool true)).

Definition probe_call (v : jsval) : Call :=
  {| request := probe_request v; handler := loadAuthorized; settled := None |}.

Definition signup_fields (st : Browser) : list (string * jsval) :=
  [("username", JStr <$> inputs (dom st) !! "#username");
   ("password", JStr <$> inputs (dom st) !! "#password");
   ("firstName", JStr <$> inputs (dom st) !! "#firstName");
   ("lastName", JStr <$> inputs (dom st) !! "#lastName");
   ("isAdmin", JStr <$> inputs (dom st) !! "input[name=isAdmin]:checked");
   ("Assignments",
    Some (JArr [JObj [("assignmentName", JStr ""); ("assignmentDate", JStr "")]]))].

Definition login_fields (st : Browser) : list (string * jsval) :=
  [("username", JStr <$> inputs (dom st) !! "#username");
   ("password", JStr <$> inputs (dom st) !! "#password")].

(** *** What the handlers leave alone *)

(** The handler leaves the cookie jar as it is. *)
Definition same_jar : relation Browser :=
  fun st st' => cookies st' = cookies st.

(** The handler leaves [APP] as it is. *)
Definition same_session : relation Browser :=
  fun st st' => APP st' = APP st.

(** The handler leaves the submit handler registered, or not, as it was. *)
Definition same_listening : relation Browser :=
  fun st st' => listening st' = listening st.

(** The addresses the scripts assign to [window.location.href]. *)
Definition destinations : list string :=
  ["sign-up.html"; "login.html"; "teacher-dash.html"].

Definition wanders : relation Browser :=
  fun st st' => href st' = href st \/ In (href st') destinations.

(** The requests the scripts know how to build. *)
Definition endpoint (r : Request) : Prop :=
  (type r = "POST" /\ url r = "/api/users") \/
  (type r = "POST" /\ url r = "/api/auth/login") \/
  (type r = "GET" /\ url r = "/api/users") \/
  (type r = "GET" /\ url r = "/api/users/") \/
  (type r = "GET" /\ url r = "/api/protected") \/
  (type r = "POST" /\ exists x, url r = "/api/users/" +:+ x).

Definition sends_known : relation Browser :=
  fun st st' =>
    exists news, map request (calls st') = (map request (calls st) ++ news)%list /\
                 Forall endpoint news.

(** [APP.LOGIN_INFO] is [undefined] and no request made so far creates an
    assignment from the teacher dashboard. *)
Definition logged_out (st : Browser) : Prop :=
  LOGIN_INFO (APP st) = None /\
  Forall (fun c => handler c <> teacher_createList) (calls st).

Definition stays_logged_out : relation Browser :=
  fun st st' => logged_out st -> logged_out st'.

(** The event does not fetch a teacher dashboard that defines
    [APP.LOGIN_INFO]. *)
Definition defines_no_login_info (ev : Event) : Prop :=
  forall info, ev = Load (teacher_dash_page info) -> info = None.

(** The session token is what the [APP_TOKEN] cookie holds. *)
Definition in_sync (st : Browser) : Prop :=
  exists str, cookies st !! "APP_TOKEN" = Some str /\
              Json.parse str = Some (JWT_TOKEN (APP st)).

(** The event does not fetch the teacher dashboard. *)
Definition on_index (ev : Event) : Prop :=
  forall info, ev <> Load (teacher_dash_page info).

(** If the event answers a request with a JSON value, no object of that
    value holds a key twice. *)
Definition answers_json (ev : Event) : Prop :=
  forall n tok, ev = Reply n (Success (BJson tok)) -> Json.wf tok.

(** The page whose ready callback stopped at a token cookie it could not
    parse: nothing was sent and no submit handler was registered. *)
Definition stalled (st : Browser) : Prop :=
  calls st = [] /\ listening st = None /\ APP st = initial_APP.

(** *** Submissions *)

(** The forms the submit handlers act on with a request. *)
Definition forms : list string := ["signup"; "login"; "js-assignment-list-form"].

(** *** The delete buttons of the teacher dashboard

    The submit handler of [dash-teacher.js] registers, each time it runs, a
    click handler on [body] for the elements of class
    [assignment-item-delete]; every registered handler raises one alert per
    click.  A page load starts with none. *)
Record TeacherDash := {
  page : Browser;
  delete_handlers : nat;
  alerts : list string
}.

Inductive TeacherEvent :=
| PageEvent (ev : Event)
| ClickDelete.                 (* a click on a delete button *)

Definition registered (t : TeacherDash) (ev : Event) : nat :=
  match ev with
  | Load _ => 0
  | Submit _ =>
      match listening (page t) with
      | Some dash_teacher_js => S (delete_handlers t)
      | _ => delete_handlers t
      end
  | _ => delete_handlers t
  end.

Definition teacher_step (t : TeacherDash) (e : TeacherEvent) : TeacherDash :=
  match e with
  | PageEvent ev =>
      {| page := step (page t) ev;
         delete_handlers := registered t ev;
         alerts := alerts t |}
  | ClickDelete =>
      {| page := page t;
         delete_handlers := delete_handlers t;
         alerts := (alerts t ++ replicate (delete_handlers t) "yay")%list |}
  end.

Definition teacher_run (t : TeacherDash) (es : list TeacherEvent) : TeacherDash :=
  foldl teacher_step t es.

Definition is_submission (e : TeacherEvent) : bool :=
  match e with
  | PageEvent (Submit _) => true
  | _ => false
  end.

Definition submissions (es : list TeacherEvent) : nat :=
  length (List.filter is_submission es).

(** The event fetches no page. *)
Definition stays_on_page (e : TeacherEvent) : Prop :=
  forall p, e <> PageEvent (Load p).

(** * Properties *)

(** ** The codec on examples *)

Example stringify_token :
  Json.stringify (JObj [("authToken", JStr "abc"); ("n", JArr [JNum (-12); JNull; JBool true])])
  = String "{" (String dquote ("authToken" +:+ String dquote (":" +:+ String dquote ("abc" +:+
      String dquote ("," +:+ String dquote ("n" +:+ String dquote ":[-12,null,true]}")))))).
Proof. reflexivity. Qed.

Example parse_token :
  Json.parse (Json.stringify
    (JObj [("authToken", JStr "abc"); ("n", JArr [JNum (-12); JNull; JBool true; JObj []; JArr []])]))
  = Some (JObj [("authToken", JStr "abc"); ("n", JArr [JNum (-12); JNull; JBool true; JObj []; JArr []])]).
Proof. vm_compute. reflexivity. Qed.

Example parse_spaces :
  Json.parse " [ 1 , 20 ,  -3 ] " = Some (JArr [JNum 1; JNum 20; JNum (-3)]).
Proof. vm_compute. reflexivity. Qed.

Example parse_leading_zero : Json.parse "[01]" = None.
Proof. vm_compute. reflexivity. Qed.

Example parse_empty : Json.parse "" = None.
Proof. reflexivity. Qed.

Example parse_escapes :
  Json.parse (String dquote ("a" +:+ String backslash ("u0041" +:+ String backslash
                ("n" +:+ String backslash ("/" +:+ String dquote "")))))
  = Some (JStr ("aA" +:+ nl +:+ "/")).
Proof. vm_compute. reflexivity. Qed.

Example stringify_control :
  Json.stringify (JStr (String "001" (String "010" (String dquote "x"))))
  = String dquote (String backslash ("u0001" +:+ String backslash ("n" +:+
      String backslash (String dquote ("x" +:+ String dquote ""))))).
Proof. vm_compute. reflexivity. Qed.

Example parse_repeated_key :
  Json.parse (Json.stringify (JObj [("a", JNum 1); ("b", JNull); ("a", JNum 2)]))
  = Some (JObj [("a", JNum 2); ("b", JNull)]).
Proof. vm_compute. reflexivity. Qed.

Example parse_fraction_outside_model : Json.parse "1.5" = None.
Proof. vm_compute. reflexivity. Qed.

(** ** The round trip of [JSON.stringify] and [JSON.parse] *)

Module JsonFacts.
Import Json.

Lemma json_ind (P : json -> Prop) :
  P JNull -> (forall b, P (JBool b)) -> (forall n, P (JNum n)) ->
  (forall s, P (JStr s)) ->
  (forall l, Forall P l -> P (JArr l)) ->
  (forall m, Forall (fun kv => P (snd kv)) m -> P (JObj m)) ->
  forall v, P v.
Proof.
  intros Hnull Hbool Hnum Hstr Harr Hobj.
  fix IH 1. intros [ | b | n | s | l | m].
  - exact Hnull.
  - apply Hbool.
  - apply Hnum.
  - apply Hstr.
  - apply Harr.
    revert l. fix IHl 1. intros [ | x r].
    + constructor.
    + constructor; [apply IH | apply IHl].
  - apply Hobj.
    revert m. fix IHm 1. intros [ | [k x] r].
    + constructor.
    + constructor; [apply IH | apply IHm].
Qed.

Lemma append_assoc (a b c : string) : (a +:+ b) +:+ c = a +:+ (b +:+ c).
Proof. induction a as [ | ch a IH]; simpl; [reflexivity | now rewrite IH]. Qed.

Lemma append_nil_r (a : string) : a +:+ "" = a.
Proof. induction a as [ | ch a IH]; simpl; [reflexivity | now rewrite IH]. Qed.

Lemma length_append (a b : string) :
  String.length (a +:+ b) = String.length a + String.length b.
Proof. induction a as [ | ch a IH]; simpl; [reflexivity | now rewrite IH]. Qed.

Lemma scan_uint_stop (s : string) : no_digit_ahead s -> scan_uint s = (Decimal.Nil, s).
Proof.
  destruct s as [ | c r]; simpl; [reflexivity | ].
  unfold is_digit. destruct (digit_of c); [discriminate | reflexivity].
Qed.

Lemma scan_uint_print (d : Decimal.uint) (rest : string) :
  no_digit_ahead rest ->
  scan_uint (NilEmpty.string_of_uint d +:+ rest) = (d, rest).
Proof.
  intros Hrest.
  induction d as [ | d IH | d IH | d IH | d IH | d IH | d IH | d IH | d IH | d IH | d IH];
    simpl; try (rewrite IH; reflexivity).
  now apply scan_uint_stop.
Qed.

Lemma read_uint_print (n : N) (rest : string) :
  no_digit_ahead rest -> read_uint (print_N n +:+ rest) = Some (n, rest).
Proof.
  intros Hrest. unfold read_uint, print_N.
  rewrite scan_uint_print by assumption.
  rewrite Unsigned.of_to.
  destruct (Decimal.uint_eq_dec _ _) as [_ | Hne]; [reflexivity | now destruct Hne].
Qed.

Lemma print_N_head (n : N) :
  exists c tl, print_N n = String c tl /\ is_digit c = true.
Proof.
  unfold print_N.
  assert (Hnn : N.to_uint n <> Decimal.Nil).
  { intros Heq. pose proof (Unsigned.of_to n) as Hn. rewrite Heq in Hn.
    simpl in Hn. subst n. discriminate Heq. }
  destruct (N.to_uint n); try (now destruct Hnn); simpl; eauto.
Qed.

Lemma parse_number_print (z : Z) (rest : string) :
  no_digit_ahead rest -> parse_number (print_Z z +:+ rest) = Some (JNum z, rest).
Proof.
  intros Hrest. destruct z as [ | p | p]; simpl.
  - change (String "0" rest) with (print_N 0 +:+ rest).
    unfold parse_number. now rewrite read_uint_print.
  - destruct (print_N_head (N.pos p)) as (c & tl & Hc & Hd).
    assert (Hpn : parse_number (print_N (N.pos p) +:+ rest)
                  = match read_uint (print_N (N.pos p) +:+ rest) with
                    | Some (n, r') => Some (JNum (Z.of_N n), r')
                    | None => None
                    end).
    { rewrite Hc. simpl. unfold parse_number.
      destruct c as [[|] [|] [|] [|] [|] [|] [|] [|]]; try discriminate Hd; reflexivity. }
    rewrite Hpn, read_uint_print by assumption. reflexivity.
  - rewrite read_uint_print by assumption. reflexivity.
Qed.

(** Every code unit survives quoting and reading back. *)
Lemma parse_chars_escape_char (c : ascii) (tl : string) :
  parse_chars (escape_char c +:+ tl)
  = match parse_chars tl with
    | Some (str, r') => Some (String c str, r')
    | None => None
    end.
Proof.
  destruct c as [[|] [|] [|] [|] [|] [|] [|] [|]]; reflexivity.
Qed.

Lemma parse_chars_escape (s rest : string) :
  parse_chars (escape s +:+ String dquote rest) = Some (s, rest).
Proof.
  induction s as [ | c s IH]; [reflexivity | ].
  cbn [escape]. rewrite append_assoc, parse_chars_escape_char, IH. reflexivity.
Qed.

Lemma parse_chars_quote (s rest : string) :
  exists tl, quote s +:+ rest = String dquote tl /\ parse_chars tl = Some (s, rest).
Proof.
  exists (escape s +:+ String dquote rest). split.
  - unfold quote. simpl. now rewrite append_assoc.
  - apply parse_chars_escape.
Qed.

Lemma stringify_arr (x : json) (r : list json) :
  stringify (JArr (x :: r)) = String "[" (stringify x +:+ tail_items r +:+ "]").
Proof. cbn [stringify]. now rewrite append_assoc. Qed.

Lemma stringify_obj (k : string) (x : json) (r : list (string * json)) :
  stringify (JObj ((k, x) :: r))
  = String "{" (quote k +:+ String ":" (stringify x +:+ tail_members r +:+ "}")).
Proof.
  cbn [stringify]. rewrite !append_assoc. reflexivity.
Qed.

Lemma wf_arr (l : list json) : wf (JArr l) <-> Forall wf l.
Proof.
  cbn [wf]. induction l as [ | x r IH].
  - split; [constructor | trivial].
  - rewrite Forall_cons, <- IH. reflexivity.
Qed.

Lemma wf_obj (m : list (string * json)) :
  wf (JObj m) <-> NoDup (map fst m) /\ Forall (fun kv => wf (snd kv)) m.
Proof.
  cbn [wf]. apply and_iff_compat_l. induction m as [ | kv r IH].
  - split; [constructor | trivial].
  - rewrite Forall_cons, <- IH. reflexivity.
Qed.

Lemma stringify_head (v : json) :
  exists c tl, stringify v = String c tl /\ opens_value c = true.
Proof.
  destruct v as [ | [ | ] | [ | p | p] | s | [ | x r] | [ | [k x] r]];
    try (eexists _, _; split; [reflexivity | reflexivity]).
  cbn [stringify print_Z].
  destruct (print_N_head (N.pos p)) as (c & tl & -> & Hd).
  exists c, tl. split; [reflexivity | ]. unfold opens_value. now rewrite Hd.
Qed.

Lemma stringify_nonempty (v : json) : 1 <= String.length (stringify v).
Proof.
  destruct (stringify_head v) as (c & tl & -> & _). simpl. lia.
Qed.

Lemma skip_ws_value (c : ascii) (tl : string) :
  opens_value c = true -> skip_ws (String c tl) = String c tl.
Proof.
  intros H. destruct c as [[|] [|] [|] [|] [|] [|] [|] [|]];
    try discriminate H; reflexivity.
Qed.

Lemma no_digit_comma (s : string) : no_digit_ahead (String "," s).
Proof. reflexivity. Qed.

Lemma parse_value_S (fuel : nat) (s : string) :
  parse_value (S fuel) s
  = match skip_ws s with
    | EmptyString => None
    | String c r =>
        if Ascii.eqb c "n" then expect "ull" JNull r
        else if Ascii.eqb c "t" then expect "rue" (JBool true) r
        else if Ascii.eqb c "f" then expect "alse" (JBool false) r
        else if Ascii.eqb c dquote then
          match parse_chars r with
          | Some (str, r') => Some (JStr str, r')
          | None => None
          end
        else if Ascii.eqb c "[" then
          match skip_ws r with
          | String "]" r' => Some (JArr [], r')
          | _ =>
              match parse_elems fuel r with
              | Some (l, r') => Some (JArr l, r')
              | None => None
              end
          end
        else if Ascii.eqb c "{" then
          match skip_ws r with
          | String "}" r' => Some (JObj [], r')
          | _ =>
              match parse_members fuel [] r with
              | Some (m, r') => Some (JObj m, r')
              | None => None
              end
          end
        else parse_number (String c r)
    end.
Proof. reflexivity. Qed.

Lemma parse_elems_S (fuel : nat) (s : string) :
  parse_elems (S fuel) s
  = match parse_value fuel s with
    | None => None
    | Some (v, r) =>
        match skip_ws r with
        | String "," r' =>
            match parse_elems fuel r' with
            | Some (l, r'') => Some (v :: l, r'')
            | None => None
            end
        | String "]" r' => Some ([v], r')
        | _ => None
        end
    end.
Proof. reflexivity. Qed.

Lemma parse_members_S (fuel : nat) (acc : list (string * json)) (s : string) :
  parse_members (S fuel) acc s
  = match skip_ws s with
    | String c r =>
        if Ascii.eqb c dquote then
          match parse_chars r with
          | None => None
          | Some (k, r1) =>
              match skip_ws r1 with
              | String ":" r2 =>
                  match parse_value fuel r2 with
                  | None => None
                  | Some (v, r3) =>
                      match skip_ws r3 with
                      | String "," r4 => parse_members fuel (obj_set k v acc) r4
                      | String "}" r4 => Some (obj_set k v acc, r4)
                      | _ => None
                      end
                  end
              | _ => None
              end
          end
        else None
    | EmptyString => None
    end.
Proof. reflexivity. Qed.

Lemma parse_value_number (fuel : nat) (c : ascii) (tl : string) :
  is_digit c || Ascii.eqb c "-" = true ->
  parse_value (S fuel) (String c tl) = parse_number (String c tl).
Proof.
  intros H. rewrite parse_value_S.
  destruct c as [[|] [|] [|] [|] [|] [|] [|] [|]];
    try discriminate H; reflexivity.
Qed.

Lemma obj_set_fresh (k : string) (v : json) (acc : list (string * json)) :
  ~ In k (map fst acc) -> obj_set k v acc = (acc ++ [(k, v)])%list.
Proof.
  induction acc as [ | [k' v'] acc IH]; intros Hk; [reflexivity | ].
  cbn [obj_set]. destruct (String.eqb_spec k k') as [-> | Hne].
  - destruct Hk. now left.
  - rewrite IH; [reflexivity | ]. intros Hin. apply Hk. now right.
Qed.

Lemma parse_elems_print (r : list json) :
  Forall round_trips r -> Forall wf r ->
  forall x fuel rest,
    round_trips x -> wf x ->
    String.length (stringify x +:+ tail_items r) < fuel ->
    parse_elems fuel (stringify x +:+ tail_items r +:+ String "]" rest)
    = Some (x :: r, rest).
Proof.
  induction r as [ | y r IH]; intros Hrt Hwf x fuel rest Hx Hwx Hlen;
    (destruct fuel as [ | fuel]; [lia | ]); rewrite parse_elems_S.
  - cbn [tail_items String.append] in *. rewrite append_nil_r in Hlen.
    rewrite Hx; [reflexivity | assumption | lia | reflexivity].
  - apply Forall_cons in Hrt as [Hy Hrt]. apply Forall_cons in Hwf as [Hwy Hwf].
    cbn [tail_items String.append] in *.
    rewrite length_append in Hlen. cbn [String.length] in Hlen.
    rewrite Hx; [ | assumption | lia | apply no_digit_comma].
    cbn [skip_ws is_ws]. cbn.
    rewrite append_assoc, IH; [reflexivity | assumption .. | lia].
Qed.

Lemma parse_member_step (fuel : nat) (acc : list (string * json))
    (k : string) (x : json) (tail : string) :
  round_trips x -> wf x ->
  String.length (stringify x) <= fuel -> no_digit_ahead tail ->
  parse_members (S fuel) acc (quote k +:+ String ":" (stringify x +:+ tail))
  = match skip_ws tail with
    | String "," r4 => parse_members fuel (obj_set k x acc) r4
    | String "}" r4 => Some (obj_set k x acc, r4)
    | _ => None
    end.
Proof.
  intros Hx Hwx Hlen Htail. rewrite parse_members_S.
  destruct (parse_chars_quote k (String ":" (stringify x +:+ tail)))
    as (tl & -> & Hp).
  change (skip_ws (String dquote tl)) with (String dquote tl).
  cbv beta iota. rewrite Ascii.eqb_refl, Hp.
  change (skip_ws (String ":" (stringify x +:+ tail)))
    with (String ":" (stringify x +:+ tail)).
  cbv beta iota. now rewrite Hx.
Qed.

Lemma parse_members_print (r : list (string * json)) :
  Forall (fun kv => round_trips (snd kv)) r ->
  Forall (fun kv => wf (snd kv)) r ->
  forall k x acc fuel rest,
    round_trips x -> wf x ->
    NoDup (map fst (acc ++ (k, x) :: r)%list) ->
    String.length (quote k +:+ String ":" (stringify x +:+ tail_members r)) < fuel ->
    parse_members fuel acc
      (quote k +:+ String ":" (stringify x +:+ tail_members r +:+ String "}" rest))
    = Some ((acc ++ (k, x) :: r)%list, rest).
Proof.
  induction r as [ | [k' y] r IH]; intros Hrt Hwf k x acc fuel rest Hx Hwx Hnd Hlen;
    (destruct fuel as [ | fuel]; [lia | ]);
    rewrite length_append in Hlen; cbn [String.length] in Hlen;
    rewrite length_append in Hlen;
    assert (Hfresh : obj_set k x acc = (acc ++ [(k, x)])%list)
      by (apply obj_set_fresh; rewrite map_app in Hnd;
          apply NoDup_app in Hnd as (_ & Hnd & _);
          intros Hin; apply (Hnd k); [now apply list_elem_of_In | left]).
  - cbn [tail_members String.append].
    rewrite parse_member_step; [ | assumption | assumption | lia | reflexivity].
    change (skip_ws (String "}" rest)) with (String "}" rest).
    cbv beta iota. now rewrite Hfresh.
  - apply Forall_cons in Hrt as [Hy Hrt]. apply Forall_cons in Hwf as [Hwy Hwf].
    cbn [tail_members String.append] in *.
    rewrite parse_member_step; [ | assumption | assumption | lia | apply no_digit_comma].
    match goal with
    | |- context [skip_ws (String "," ?t)] =>
        change (skip_ws (String "," t)) with (String "," t)
    end.
    cbv beta iota. rewrite Hfresh, !append_assoc. cbn [String.append].
    rewrite append_assoc.
    rewrite IH; [now rewrite <- app_assoc | assumption .. | | ].
    + now rewrite <- app_assoc.
    + cbn [String.length] in Hlen. lia.
Qed.

Lemma starts_value_stringify (x : json) (tl : string) :
  starts_value (stringify x +:+ tl).
Proof. destruct (stringify_head x) as (c & r & -> & Hc). exact Hc. Qed.

Lemma parse_value_string (fuel : nat) (tl : string) :
  parse_value (S fuel) (String dquote tl)
  = match parse_chars tl with
    | Some (str, r') => Some (JStr str, r')
    | None => None
    end.
Proof. reflexivity. Qed.

Lemma parse_value_array (fuel : nat) (s : string) :
  starts_value s ->
  parse_value (S fuel) (String "[" s)
  = match parse_elems fuel s with
    | Some (l, r') => Some (JArr l, r')
    | None => None
    end.
Proof.
  destruct s as [ | c tl]; [intros [] | ]. intros H. rewrite parse_value_S.
  destruct c as [[|] [|] [|] [|] [|] [|] [|] [|]];
    try discriminate H; reflexivity.
Qed.

Lemma parse_value_object (fuel : nat) (k tl : string) :
  parse_value (S fuel) (String "{" (quote k +:+ tl))
  = match parse_members fuel [] (quote k +:+ tl) with
    | Some (m, r') => Some (JObj m, r')
    | None => None
    end.
Proof. reflexivity. Qed.

Lemma print_Z_head (z : Z) :
  exists c tl, print_Z z = String c tl /\ is_digit c || Ascii.eqb c "-" = true.
Proof.
  destruct z as [ | p | p]; cbn [print_Z].
  - eexists _, _. split; reflexivity.
  - destruct (print_N_head (N.pos p)) as (c & tl & -> & Hd).
    exists c, tl. now rewrite Hd.
  - eexists _, _. split; reflexivity.
Qed.

(** Every well-formed value is read back from its own text. *)
Lemma parse_value_print (v : json) : round_trips v.
Proof.
  induction v as [ | b | n | s | l IH | m IH] using json_ind;
    intros Hwf fuel rest Hlen Hrest;
    (destruct fuel as [ | fuel];
     [match type of Hlen with
      | String.length (stringify ?w) <= 0 => pose proof (stringify_nonempty w); lia
      end | ]).
  - reflexivity.
  - destruct b; reflexivity.
  - cbn [stringify].
    pose proof (parse_number_print n rest Hrest) as Hnum.
    destruct (print_Z_head n) as (c & tl & Heq & Hc). rewrite Heq in *.
    cbn [String.append] in *. now rewrite parse_value_number.
  - cbn [stringify].
    destruct (parse_chars_quote s rest) as (tl & -> & Hp).
    now rewrite parse_value_string, Hp.
  - destruct l as [ | x r]; [reflexivity | ].
    apply Forall_cons in IH as [Hx Hr].
    apply wf_arr, Forall_cons in Hwf as [Hwx Hwr].
    rewrite stringify_arr in *. cbn [String.append String.length] in *.
    rewrite !append_assoc in *. cbn [String.append] in *.
    rewrite parse_value_array by apply starts_value_stringify.
    rewrite parse_elems_print; [reflexivity | assumption .. | ].
    rewrite !length_append in *. cbn [String.length] in Hlen. lia.
  - destruct m as [ | [k x] r]; [reflexivity | ].
    apply Forall_cons in IH as [Hx Hr].
    apply wf_obj in Hwf as [Hnd Hwf]. apply Forall_cons in Hwf as [Hwx Hwr].
    rewrite stringify_obj in *. cbn [String.append String.length] in *.
    rewrite !append_assoc in *. cbn [String.append] in *.
    rewrite !append_assoc in *. cbn [String.append] in *.
    rewrite parse_value_object.
    rewrite (parse_members_print r Hr Hwr k x []); [reflexivity | assumption .. | ].
    rewrite !length_append in *. cbn [String.length] in *.
    rewrite !length_append in *. cbn [String.length] in *. lia.
Qed.

(** [JSON.parse (JSON.stringify v)] is [v]. *)
Lemma parse_stringify (v : json) : wf v -> parse (stringify v) = Some v.
Proof.
  intros Hwf. unfold parse.
  rewrite <- (append_nil_r (stringify v)) at 2.
  rewrite parse_value_print; [reflexivity | assumption | lia | exact I].
Qed.

(** The text of a value is never empty, so it is truthy as a string. *)
Lemma stringify_not_empty (v : json) : stringify v <> "".
Proof. destruct (stringify_head v) as (c & tl & -> & _). discriminate. Qed.

End JsonFacts.

(** ** A session, replayed *)

Example login_trace_requests :
  map (fun c => (type (request c), url (request c), headers (request c)))
      (calls (run (fresh_page index_page ∅ "login.html") login_trace))
  = [ ("POST", "/api/auth/login", []);
      ("GET", "/api/users/", []);
      ("GET", "/api/protected", [("Authorization", "Bearer abc.def.ghi")]) ].
Proof. vm_compute. reflexivity. Qed.

Example login_trace_cookie :
  cookies (run (fresh_page index_page ∅ "login.html") login_trace) !! "APP_TOKEN"
  = Some (Json.stringify token).
Proof. vm_compute. reflexivity. Qed.

Example login_trace_enters_dashboard :
  href (run (fresh_page index_page ∅ "login.html") login_trace) = "login.html" /\
  href (run (fresh_page index_page ∅ "login.html") (login_trace ++ [Reply 2 (Success (BJson JNull))]))
  = "teacher-dash.html".
Proof. split; vm_compute; reflexivity. Qed.

Example teacher_add_item_needs_login_info :
  map (fun c => (type (request c), url (request c), headers (request c)))
      (calls (run (fresh_page index_page ∅ "teacher-dash.html")
                  [Load (teacher_dash_page None); Input "#username" "alice";
                   Submit (Some "js-assignment-list-form");
                   Reply 1 (Success (BUsers [teacher; alice]))]))
  = [("GET", "/api/users", []); ("GET", "/api/users", [])] /\
  map (fun c => (type (request c), url (request c), headers (request c)))
      (calls (run (fresh_page index_page ∅ "teacher-dash.html")
                  [Load (teacher_dash_page (Some token)); Input "#username" "alice";
                   Submit (Some "js-assignment-list-form");
                   Reply 1 (Success (BUsers [teacher; alice]))]))
  = [("GET", "/api/users", []); ("GET", "/api/users", []);
     ("POST", "/api/users/u1", [("Authorization", "Bearer abc.def.ghi")])].
Proof. split; vm_compute; reflexivity. Qed.

(** ** Reasoning about handlers *)

(** Unfolding a handler down to the state it returns. *)
Ltac unfold_handlers :=
  repeat progress unfold Index.sendSignUp, Index.sendLogin, Index.signUpForm,
    Index.signUp_success_cb, Index.signUp_error_cb, Index.handleAddItem, Index.createList_error_cb,
    Index.saveLoginToken, Index.restoreLoginToken, Index.loginForm,
    Index.login_success_cb, Index.successful_error_cb, Index.loadAuthorized_cb,
    Index.unauthorized_cb, Index.submit, Index.ready,
    DashTeacher.handleAddItem, DashTeacher.createList_error_cb, DashTeacher.loadUsers,
    DashTeacher.loadUsers_success_cb, DashTeacher.submit, DashTeacher.ready in *.

Ltac unfold_calls :=
  unfold jQuery.ajax, jQuery.val, jQuery.empty, jQuery.html, jQuery.append, jQuery.hide,
    jQuery.show, Cookies.set, Cookies.get, console_log, location_assign, GET in *.

Ltac reduce_state :=
  unfold exec, bind, ret, throw, lift, modify, reads in *;
  cbn [fst snd
       set_APP set_cookies set_dom set_href set_console set_calls set_listening
       set_inputs set_content set_hidden set_JWT_TOKEN
       APP cookies dom href console calls listening inputs content hidden
       JWT_TOKEN lastAssignments LOGIN_INFO
       request handler settled type url headers data contentType
       fresh_page page_APP initial_APP] in *.

Ltac run_handler := unfold_handlers; unfold_calls; reduce_state.

Section Frames.
Context (R : relation Browser) `{!Reflexive R, !Transitive R}.

Lemma keeps_ret {A} (a : A) : keeps R (ret a).
Proof. intros st. reflexivity. Qed.

Lemma keeps_bind {A B} (m : M A) (k : A -> M B) :
  keeps R m -> (forall a, keeps R (k a)) -> keeps R (bind m k).
Proof.
  intros Hm Hk st. unfold bind. specialize (Hm st).
  destruct (m st) as [[a | e] st']; cbn in *; [ | assumption].
  etransitivity; [eassumption | apply Hk].
Qed.

Lemma keeps_for_each {A} (l : list A) (body : A -> M unit) :
  (forall x, keeps R (body x)) -> keeps R (for_each l body).
Proof.
  intros Hbody. induction l as [ | x r IH]; cbn [for_each].
  - apply keeps_ret.
  - apply keeps_bind; [apply Hbody | intros _; exact IH].
Qed.

Lemma keeps_throw {A} (e : js_error) : keeps R (@throw A e).
Proof. intros st. reflexivity. Qed.

Lemma keeps_lift {A} (o : outcome A) : keeps R (lift o).
Proof. intros st. reflexivity. Qed.

Lemma keeps_reads {A} (f : Browser -> A) : keeps R (reads f).
Proof. intros st. reflexivity. Qed.

Lemma keeps_modify (f : Browser -> Browser) :
  (forall st, R st (f st)) -> keeps R (modify f).
Proof. intros Hf st. apply Hf. Qed.

Lemma keeps_exec (m : M unit) (st : Browser) : keeps R m -> R st (exec m st).
Proof. intros Hm. apply Hm. Qed.

End Frames.

(** Walking a handler down to its assignments, which [leaf] must relate. *)
Ltac frame_step leaf :=
  lazymatch goal with
  | |- keeps _ (ret _) => apply keeps_ret; exact _
  | |- keeps _ (reads _) => apply keeps_reads; exact _
  | |- keeps _ (lift _) => apply keeps_lift; exact _
  | |- keeps _ (throw _) => apply keeps_throw; exact _
  | |- keeps _ (bind _ _) => apply keeps_bind; [exact _ | | intros ?]
  | |- keeps _ (for_each _ _) => apply keeps_for_each; [exact _ | exact _ | intros ?]
  | |- keeps _ (if ?c then _ else _) => destruct c
  | |- keeps _ (match ?x with _ => _ end) => destruct x
  | |- keeps _ (modify _) => apply keeps_modify; intros ?; leaf
  end.

Ltac frame leaf := cbv zeta; repeat (frame_step leaf).

#[local] Instance cookies_grow_refl : Reflexive cookies_grow.
Proof. intros st k H. exact H. Qed.

#[local] Instance cookies_grow_trans : Transitive cookies_grow.
Proof. intros a b c Hab Hbc k H. apply Hbc, Hab, H. Qed.

Ltac cookies_leaf :=
  intros ? ?; reduce_state; try (apply lookup_insert_is_Some'; right); eauto.

Lemma callbacks_keep_cookies (h : Handler) (r : Response) (m : M unit) :
  deliver h r = Some m -> keeps cookies_grow m.
Proof.
  intros Hd.
  destruct h, r as [[v | l | u] | e]; cbn in Hd; simplify_eq;
    unfold Index.studentUsers_cb, Index.successful_cb, Index.createList_cb,
      DashTeacher.studentUsers_cb, DashTeacher.createList_cb;
    unfold_handlers; unfold_calls; frame cookies_leaf.
Qed.

Lemma submit_keeps_cookies (s : Script) (name : option string) :
  keeps cookies_grow (on_submit s name).
Proof.
  destruct s; unfold on_submit; unfold_handlers; unfold_calls; frame cookies_leaf.
Qed.

Lemma ready_keeps_cookies (s : Script) : keeps cookies_grow (ready s).
Proof.
  destruct s; unfold ready; unfold_handlers; unfold_calls; frame cookies_leaf.
Qed.

(** No event takes a cookie away. *)
Lemma step_keeps_cookies (st : Browser) (ev : Event) : cookies_grow st (step st ev).
Proof.
  destruct ev as [p | sel v | [ | ] | name | n r]; cbn [step].
  - apply (ready_keeps_cookies (script_of p) (fresh_page p (cookies st) (href st))).
  - intros k H. exact H.
  - intros k H. exact H.
  - intros k H. exact H.
  - destruct (listening st) as [s | ]; [ | reflexivity].
    apply submit_keeps_cookies.
  - destruct (calls st !! n) as [c | ]; [ | reflexivity].
    destruct (settled c); [reflexivity | ].
    destruct (deliver (handler c) r) as [m | ] eqn:Hd; [ | reflexivity].
    apply (callbacks_keep_cookies _ _ _ Hd (settle n r st)).
Qed.

(** ** The persisted token *)

(** [saveLoginToken] and [restoreLoginToken] of the page are those of
    [TokenCookie] at the JSON of the model. *)
Lemma index_save_as_runtime (st : Browser) :
  fst (Index.saveLoginToken st) = Done tt /\
  APP (exec Index.saveLoginToken st) = APP st /\
  cookies (exec Index.saveLoginToken st)
  = TokenCookie.jar (TokenCookie.saveLoginToken Json.stringify (session_of st)).
Proof. run_handler. repeat split. Qed.

Lemma index_restore_as_runtime (st : Browser) :
  fst (Index.restoreLoginToken st)
  = fst (TokenCookie.restoreLoginToken Json.parse empty_text (session_of st)) /\
  JWT_TOKEN (APP (snd (Index.restoreLoginToken st)))
  = TokenCookie.JWT_TOKEN
      (snd (TokenCookie.restoreLoginToken Json.parse empty_text (session_of st))) /\
  cookies (snd (Index.restoreLoginToken st))
  = TokenCookie.jar
      (snd (TokenCookie.restoreLoginToken Json.parse empty_text (session_of st))).
Proof.
  unfold TokenCookie.restoreLoginToken, session_of, empty_text.
  cbn [TokenCookie.jar TokenCookie.JWT_TOKEN]. run_handler.
  destruct (cookies st !! "APP_TOKEN") as [str | ]; cbn [truthy from_option Datatypes.id];
    [ | repeat split].
  destruct (str =? "")%string; cbn [negb]; [repeat split | ].
  destruct (Json.parse str); repeat split.
Qed.

(** The round trip on the page, for the JSON values of the model. *)
Lemma index_save_restore (t : json) (st st' : Browser) :
  Json.wf t ->
  cookies st' !! "APP_TOKEN"
    = cookies (exec Index.saveLoginToken (set_APP (set_JWT_TOKEN t (APP st)) st)) !! "APP_TOKEN" ->
  cookies (exec Index.saveLoginToken (set_APP (set_JWT_TOKEN t (APP st)) st))
    = <["APP_TOKEN" := Json.stringify t]> (cookies st) /\
  fst (Index.restoreLoginToken st') = Done tt /\
  JWT_TOKEN (APP (snd (Index.restoreLoginToken st'))) = t.
Proof.
  intros Hwf Hjar. run_handler. split; [reflexivity | ].
  rewrite lookup_insert_eq in Hjar. rewrite Hjar. cbn [truthy from_option Datatypes.id].
  destruct (String.eqb_spec (Json.stringify t) "") as [Hempty | _].
  - now apply JsonFacts.stringify_not_empty in Hempty.
  - cbn [negb]. rewrite JsonFacts.parse_stringify by assumption.
    reduce_state. split; reflexivity.
Qed.



(** C10 (amended): when the [APP_TOKEN] cookie holds a text that is not
    valid JSON, [restoreLoginToken] throws and leaves the state, the session
    token included, as it was, provided the text is not empty; an empty
    text is skipped like an absent cookie and the restore returns
    normally. *)
Theorem restore_malformed_cookie (st : Browser) (str : string) :
  cookies st !! "APP_TOKEN" = Some str ->
  Json.parse str = None ->
  Index.restoreLoginToken st
  = if String.eqb str "" then (Done tt, st) else (Thrown SyntaxError, st).
Proof.
  intros Hjar Hparse. run_handler. rewrite Hjar. cbn [truthy from_option Datatypes.id].
  destruct (String.eqb str ""); cbn [negb]; [reflexivity | ].
  now rewrite Hparse.
Qed.

Lemma restore_malformed_cookie_witness :
  Json.parse "{oops" = None /\
  Index.restoreLoginToken (fresh_page index_page {[ "APP_TOKEN" := "{oops" ]} "login.html")
  = (Thrown SyntaxError, fresh_page index_page {[ "APP_TOKEN" := "{oops" ]} "login.html").
Proof.
  split; [reflexivity | ].
  apply (restore_malformed_cookie
           (fresh_page index_page {[ "APP_TOKEN" := "{oops" ]} "login.html") "{oops");
    reflexivity.
Defined.

(** C10 as stated fails on an empty cookie: the text is not valid JSON,
    yet the restore returns normally. *)
Lemma restore_empty_cookie_returns :
  cookies (fresh_page index_page {[ "APP_TOKEN" := "" ]} "login.html") !! "APP_TOKEN" = Some "" /\
  Json.parse "" = None /\
  Index.restoreLoginToken (fresh_page index_page {[ "APP_TOKEN" := "" ]} "login.html")
  = (Done tt, fresh_page index_page {[ "APP_TOKEN" := "" ]} "login.html").
Proof. repeat split. Qed.

(** C4 as stated fails: after the probe is refused the token is still in
    the cookie jar and in the session. *)
Lemma token_survives_failed_probe :
  let st := run (fresh_page index_page ∅ "login.html")
                (login_trace ++ [Reply 2 (Failure bad_credentials)]) in
  (exists c, calls st !! 2 = Some c /\ url (request c) = "/api/protected"
             /\ settled c = Some (Failure bad_credentials)) /\
  cookies st !! "APP_TOKEN" = Some (Json.stringify token) /\
  JWT_TOKEN (APP st) = token.
Proof.
  cbv zeta. split; [ | split].
  - eexists. split; [vm_compute; reflexivity | split; reflexivity].
  - vm_compute. reflexivity.
  - vm_compute. reflexivity.
Qed.

Lemma run_keeps_cookies (evs : list Event) (st : Browser) : cookies_grow st (run st evs).
Proof.
  revert st. induction evs as [ | ev evs IH]; intros st; [reflexivity | ].
  etransitivity; [apply (step_keeps_cookies st ev) | apply IH].
Qed.

(** C4 (amended): the client never discards the persisted token.  Once
    the [APP_TOKEN] cookie is present it is present after any sequence of
    events, and a refused [/api/protected] probe leaves the cookie jar and
    the session token exactly as they were. *)
Theorem token_cookie_never_discarded (st : Browser) (evs : list Event) :
  is_Some (cookies st !! "APP_TOKEN") ->
  is_Some (cookies (run st evs) !! "APP_TOKEN") /\
  (forall n c e,
     calls st !! n = Some c -> handler c = loadAuthorized ->
     cookies (step st (Reply n (Failure e))) = cookies st /\
     APP (step st (Reply n (Failure e))) = APP st).
Proof.
  intros Hjar. split; [now apply run_keeps_cookies | ].
  intros n c e Hc Hh. cbn [step]. rewrite Hc.
  destruct (settled c); [split; reflexivity | ].
  rewrite Hh. cbn [deliver]. run_handler. split; reflexivity.
Qed.

Lemma token_cookie_never_discarded_witness :
  let st := run (fresh_page index_page ∅ "login.html") login_trace in
  is_Some (cookies st !! "APP_TOKEN") /\
  is_Some (cookies (run st [Reply 2 (Failure bad_credentials); Load index_page;
                            Click loginButton]) !! "APP_TOKEN").
Proof.
  cbv zeta.
  assert (H : is_Some (cookies (run (fresh_page index_page ∅ "login.html") login_trace)
                         !! "APP_TOKEN")).
  { exists (Json.stringify token). vm_compute. reflexivity. }
  split; [exact H | ].
  apply (token_cookie_never_discarded _
           [Reply 2 (Failure bad_credentials); Load index_page; Click loginButton] H).
Defined.

(** ** Page load *)

(** C2 as stated fails: a page load that finds the token cookie restores
    the token and issues no request at all. *)
Lemma page_load_issues_no_request :
  let st := step (fresh_page index_page {[ "APP_TOKEN" := Json.stringify token ]} "login.html")
                 (Load index_page) in
  JWT_TOKEN (APP st) = token /\ calls st = [].
Proof. cbv zeta. split; vm_compute; reflexivity. Qed.

(** C2 (amended): on every load of the page of [index.js] where the token
    cookie holds well-formed JSON, the client restores the token into the
    session and registers its submit handler; it issues no request and
    selects no view at that point: the address and the page content are
    those of the page just fetched. *)
Theorem page_load_restores_token (st : Browser) (str : string) (tok : json) :
  cookies st !! "APP_TOKEN" = Some str ->
  Json.parse str = Some tok ->
  JWT_TOKEN (APP (step st (Load index_page))) = tok /\
  calls (step st (Load index_page)) = [] /\
  href (step st (Load index_page)) = href st /\
  dom (step st (Load index_page)) = dom (fresh_page index_page (cookies st) (href st)) /\
  listening (step st (Load index_page)) = Some index_js.
Proof.
  intros Hjar Hparse. cbn [step script_of ready].
  run_handler. rewrite Hjar. cbn [truthy from_option Datatypes.id].
  destruct (String.eqb_spec str "") as [-> | _]; [discriminate Hparse | ].
  cbn [negb]. rewrite Hparse. reduce_state. repeat split.
Qed.

Lemma page_load_restores_token_witness :
  Json.parse (Json.stringify token) = Some token /\
  calls (step (fresh_page index_page {[ "APP_TOKEN" := Json.stringify token ]} "login.html")
              (Load index_page)) = [].
Proof.
  split; [vm_compute; reflexivity | ].
  apply (page_load_restores_token
           (fresh_page index_page {[ "APP_TOKEN" := Json.stringify token ]} "login.html")
           (Json.stringify token) token);
    vm_compute; reflexivity.
Defined.

(** ** Login submissions *)





(** ** Rendering *)

Lemma children_html (sel : string) (items : list string) (st : Browser) :
  children sel (exec (jQuery.html sel items) st) = items.
Proof. unfold children. run_handler. now rewrite lookup_insert_eq. Qed.

Lemma children_append (sel : string) (item : string) (st : Browser) :
  children sel (exec (jQuery.append sel item) st) = (children sel st ++ [item])%list.
Proof. unfold children at 1. run_handler. now rewrite lookup_insert_eq. Qed.

Lemma exec_then (m k : M unit) (st : Browser) :
  fst (m st) = Done tt -> exec (m ;; k) st = exec k (exec m st).
Proof.
  unfold exec, bind. destruct (m st) as [[[] | e] st']; cbn; [reflexivity | discriminate].
Qed.

(** Appending one item per element leaves them in the order of the list. *)
Lemma children_for_each_append {A} (sel : string) (f : A -> string) (l : list A)
    (st : Browser) :
  children sel (exec (for_each l (fun a => jQuery.append sel (f a))) st)
  = (children sel st ++ map f l)%list.
Proof.
  revert st. induction l as [ | x r IH]; intros st; cbn [for_each map].
  - unfold exec, ret. cbn. now rewrite app_nil_r.
  - rewrite exec_then by reflexivity.
    rewrite IH, children_append, <- app_assoc. reflexivity.
Qed.

Lemma index_item_shows (userObj : User) (a : Assignment) :
  shows (ToString (assignmentName a)) (Index.item_html userObj a) /\
  shows (ToString (assignmentDate a)) (Index.item_html userObj a).
Proof.
  unfold Index.item_html. split.
  - eexists _, _. do 6 (rewrite <- JsonFacts.append_assoc).
    rewrite JsonFacts.append_assoc. reflexivity.
  - eexists _, _. do 8 (rewrite <- JsonFacts.append_assoc).
    rewrite JsonFacts.append_assoc. reflexivity.
Qed.

Lemma teacher_item_shows (a : Assignment) :
  shows (ToString (assignmentName a)) (DashTeacher.item_html a) /\
  shows (ToString (assignmentDate a)) (DashTeacher.item_html a).
Proof.
  unfold DashTeacher.item_html. split.
  - eexists _, _. do 8 (rewrite <- JsonFacts.append_assoc).
    rewrite JsonFacts.append_assoc. reflexivity.
  - eexists _, _. do 14 (rewrite <- JsonFacts.append_assoc).
    rewrite JsonFacts.append_assoc. reflexivity.
Qed.

Lemma index_createList_children (userObj : User) (st : Browser) :
  children ".showAssignment" (exec (Index.createList_cb userObj) st)
  = map (Index.item_html userObj) (Assignments userObj).
Proof.
  unfold Index.createList_cb, jQuery.empty.
  rewrite exec_then by reflexivity.
  now rewrite children_for_each_append, children_html.
Qed.

Lemma teacher_createList_children (userObj : User) (st : Browser) :
  children ".showAssignment" (exec (DashTeacher.createList_cb userObj) st)
  = ("<h3>" +:+ ToString (username userObj) +:+ "</h3>")
      :: map DashTeacher.item_html (Assignments userObj).
Proof.
  unfold DashTeacher.createList_cb, jQuery.empty.
  rewrite !exec_then by reflexivity.
  now rewrite children_for_each_append, children_append, children_html.
Qed.

(** C8: when the request that creates an assignment succeeds, the page
    lists the assignments of the returned user, one item per assignment of
    the returned sequence and in its order ([dash-teacher.js] puts the user
    name in a heading first); the item of every assignment of the sequence,
    the new one among them, shows its name and its date. *)
Theorem created_assignment_rendered (st : Browser) (n : nat) (c : Call) (userObj : User) :
  calls st !! n = Some c ->
  settled c = None ->
  (handler c = createList ->
   children ".showAssignment" (step st (Reply n (Success (BUser userObj))))
   = map (Index.item_html userObj) (Assignments userObj)) /\
  (handler c = teacher_createList ->
   children ".showAssignment" (step st (Reply n (Success (BUser userObj))))
   = ("<h3>" +:+ ToString (username userObj) +:+ "</h3>")
       :: map DashTeacher.item_html (Assignments userObj)) /\
  (forall a,
     shows (ToString (assignmentName a)) (Index.item_html userObj a) /\
     shows (ToString (assignmentDate a)) (Index.item_html userObj a) /\
     shows (ToString (assignmentName a)) (DashTeacher.item_html a) /\
     shows (ToString (assignmentDate a)) (DashTeacher.item_html a)).
Proof.
  intros Hc Hs. split; [ | split].
  - intros Hh. cbn [step]. rewrite Hc, Hs, Hh. cbn [deliver].
    apply index_createList_children.
  - intros Hh. cbn [step]. rewrite Hc, Hs, Hh. cbn [deliver].
    apply teacher_createList_children.
  - intros a. pose proof (index_item_shows userObj a) as [? ?].
    pose proof (teacher_item_shows a) as [? ?]. auto.
Qed.

Lemma created_assignment_rendered_witness :
  let st := run (fresh_page index_page ∅ "teacher-dash.html") add_item_trace in
  (exists c, calls st !! 1 = Some c /\ settled c = None /\ handler c = createList
             /\ url (request c) = "/api/users/u1") /\
  children ".showAssignment" (step st (Reply 1 (Success (BUser alice))))
  = [Index.item_html alice {| assignmentName := Some (JStr "Essay 1");
                              assignmentDate := Some (JStr "2024-10-01") |}].
Proof.
  cbv zeta.
  destruct (calls (run (fresh_page index_page ∅ "teacher-dash.html") add_item_trace) !! 1)
    as [c | ] eqn:Hc; [ | vm_compute in Hc; discriminate Hc].
  assert (Hcall : settled c = None /\ handler c = createList
                  /\ url (request c) = "/api/users/u1").
  { pose proof Hc as Hc'. vm_compute in Hc'. injection Hc' as <-. repeat split. }
  destruct Hcall as (Hs & Hh & Hu).
  split; [exists c; auto | ].
  apply (created_assignment_rendered _ 1 c alice Hc Hs). exact Hh.
Defined.

(** ** The student list *)

Lemma is_student_spec (u : User) : is_student u = true <-> isAdmin u = Some (JBool false).
Proof.
  unfold is_student, strict_eq. split.
  - destruct (isAdmin u) as [[ | [ | ] | | | | ] | ]; (discriminate || reflexivity).
  - intros ->. reflexivity.
Qed.

Lemma push_students_spec (users : list User) (options : list string) :
  DashTeacher.push_students users options
  = (options ++ map DashTeacher.option_html (List.filter is_student users))%list.
Proof.
  revert options. induction users as [ | u r IH]; intros options;
    cbn [DashTeacher.push_students List.filter map].
  - now rewrite app_nil_r.
  - fold (is_student u). destruct (is_student u); rewrite IH; [ | reflexivity].
    cbn [map]. now rewrite <- app_assoc.
Qed.

Lemma dash_load_calls (st : Browser) (info : jsval) :
  calls (step st (Load (teacher_dash_page info))) !! 0
  = Some {| request := GET "/api/users"; handler := loadUsers_success; settled := None |}.
Proof. reflexivity. Qed.

Lemma loadUsers_reply (st : Browser) (n : nat) (c : Call) (users : list User) :
  calls st !! n = Some c -> settled c = None -> handler c = loadUsers_success ->
  children ".showStudents-js" (step st (Reply n (Success (BUsers users))))
  = DashTeacher.push_students users [].
Proof.
  intros Hc Hs Hh. cbn [step]. rewrite Hc, Hs, Hh. cbn [deliver].
  apply children_html.
Qed.

(** C9: whatever users list answers the request made when the teacher
    dashboard loads, the student drop-down then holds exactly the usernames
    of the users whose [isAdmin] is [false], in the order of the response,
    one [<option>] per such user with the username as its value and as its
    label, and nothing else: a user with any other [isAdmin] gets no
    option. *)
Theorem student_list_populated (st : Browser) (info : jsval) (users : list User) :
  children ".showStudents-js"
    (step (step st (Load (teacher_dash_page info))) (Reply 0 (Success (BUsers users))))
  = map (fun name => "<option value=" +:+ dq +:+ name +:+ dq +:+ ">" +:+ name +:+ "</option>")
        (map (fun u => ToString (username u)) (List.filter is_student users))
  /\ (forall u, is_student u = true <-> isAdmin u = Some (JBool false)).
Proof.
  split; [ | apply is_student_spec].
  rewrite (loadUsers_reply _ 0 _ users (dash_load_calls st info) eq_refl eq_refl).
  rewrite push_students_spec, map_map. reflexivity.
Qed.

Example student_list_sample :
  children ".showStudents-js"
    (run (fresh_page index_page ∅ "teacher-dash.html")
         [Load (teacher_dash_page None); Reply 0 (Success (BUsers [teacher; alice]))])
  = [ "<option value=" +:+ dq +:+ "alice" +:+ dq +:+ ">alice</option>" ].
Proof. vm_compute. reflexivity. Qed.

(** ** Failures *)

(** C6 as stated fails: a login refused with 401 changes nothing on the
    page and writes nothing to the console, and a refused assignment
    creation is reported on the console only. *)
Lemma refused_requests_show_nothing :
  (let st := run (fresh_page index_page ∅ "login.html")
                 [Load index_page; Input "#username" "alice"; Input "#password" "wrong";
                  Submit (Some "login")] in
   (exists c, calls st !! 0 = Some c /\ url (request c) = "/api/auth/login"
              /\ settled c = None) /\
   dom (step st (Reply 0 (Failure bad_credentials))) = dom st /\
   console (step st (Reply 0 (Failure bad_credentials))) = console st /\
   href (step st (Reply 0 (Failure bad_credentials))) = href st) /\
  (let st := run (fresh_page index_page ∅ "teacher-dash.html") add_item_trace in
   dom (step st (Reply 1 (Failure forbidden))) = dom st /\
   console (step st (Reply 1 (Failure forbidden)))
   = (console st ++ [[LStr "An error has occured!"]])%list).
Proof.
  cbv zeta. split; [split; [ | split; [ | split]] | split].
  - eexists. split; [vm_compute; reflexivity | split; reflexivity].
  - vm_compute. reflexivity.
  - vm_compute. reflexivity.
  - vm_compute. reflexivity.
  - vm_compute. reflexivity.
  - vm_compute. reflexivity.
Qed.

(** C6 (amended): when a sign-up fails with a response body that carries a
    message, the page shows [Username <message>!] and [Password <message>!]
    and, if the body names the location [username] or [password], keeps
    visible the one next to that field and hides the other.  The failures
    of the users read of the login flow, of the role probe and of the
    creation of an assignment are written to the console and leave the page
    as it is. *)
Theorem failure_display (st : Browser) (n : nat) (c : Call) (err : Xhr) :
  calls st !! n = Some c ->
  settled c = None ->
  (forall body,
     handler c = signUp_success ->
     responseJSON err = Some (JObj body) ->
     children ".js-errorsUser" (step st (Reply n (Failure err)))
     = ["Username " +:+ ToString (assoc "message" body) +:+ "!"] /\
     children ".js-errorsPass" (step st (Reply n (Failure err)))
     = ["Password " +:+ ToString (assoc "message" body) +:+ "!"] /\
     (assoc "location" body = Some (JStr "username") ->
      (".js-errorsUser" ∉ hidden (dom (step st (Reply n (Failure err))))) /\
      (".js-errorsPass" ∈ hidden (dom (step st (Reply n (Failure err)))))) /\
     (assoc "location" body = Some (JStr "password") ->
      (".js-errorsPass" ∉ hidden (dom (step st (Reply n (Failure err))))) /\
      (".js-errorsUser" ∈ hidden (dom (step st (Reply n (Failure err))))))) /\
  (logs_failure (handler c) ->
   dom (step st (Reply n (Failure err))) = dom st /\
   exists entry, console (step st (Reply n (Failure err))) = (console st ++ [entry])%list).
Proof.
  intros Hc Hs. split.
  - intros body Hh Hbody. cbn [step]. rewrite Hc, Hs, Hh. cbn [deliver].
    unfold children. run_handler. rewrite Hbody. cbn [get_prop_of get_prop].
    split; [ | split; [ | split]].
    + destruct (strict_eq (assoc "location" body) (Some (JStr "username")));
        [ | destruct (strict_eq (assoc "location" body) (Some (JStr "password")))];
        reduce_state; now simplify_map_eq.
    + destruct (strict_eq (assoc "location" body) (Some (JStr "username")));
        [ | destruct (strict_eq (assoc "location" body) (Some (JStr "password")))];
        reduce_state; now simplify_map_eq.
    + intros ->. cbn [strict_eq String.eqb Ascii.eqb Bool.eqb]. reduce_state.
      set_unfold. split; [tauto | split; [left; reflexivity | intros H; inversion H]].
    + intros ->. cbn [strict_eq String.eqb Ascii.eqb Bool.eqb]. reduce_state.
      set_unfold. split; [tauto | split; [left; reflexivity | intros H; inversion H]].
  - intros Hlog. cbn [step]. rewrite Hc, Hs.
    destruct Hlog as [-> | [-> | [-> | ->]]]; cbn [deliver]; run_handler;
      (split; [reflexivity | eexists; reflexivity]).
Qed.

Lemma failure_display_witness :
  let st := run (fresh_page index_page ∅ "sign-up.html")
                [Load index_page; Input "#username" "alice"; Submit (Some "signup")] in
  (exists c, calls st !! 0 = Some c /\ settled c = None /\ handler c = signUp_success) /\
  children ".js-errorsUser" (step st (Reply 0 (Failure duplicate_username)))
  = ["Username already taken!"] /\
  ".js-errorsPass" ∈ hidden (dom (step st (Reply 0 (Failure duplicate_username)))).
Proof.
  cbv zeta.
  destruct (calls (run (fresh_page index_page ∅ "sign-up.html")
                     [Load index_page; Input "#username" "alice"; Submit (Some "signup")])
            !! 0) as [c | ] eqn:Hc; [ | vm_compute in Hc; discriminate Hc].
  assert (Hcall : settled c = None /\ handler c = signUp_success).
  { pose proof Hc as Hc'. vm_compute in Hc'. injection Hc' as <-. split; reflexivity. }
  destruct Hcall as [Hs Hh].
  destruct (failure_display _ 0 c duplicate_username Hc Hs) as [Hsign _].
  destruct (Hsign _ Hh eq_refl) as (Huser & _ & Hloc & _).
  split; [exists c; auto | ].
  split; [exact Huser | ]. apply Hloc. reflexivity.
Defined.

(** ** Requests and the token *)

#[local] Instance sends_plain_refl : Reflexive sends_plain.
Proof. intros st. split; [reflexivity | ]. exists []. now rewrite app_nil_r. Qed.

#[local] Instance sends_plain_trans : Transitive sends_plain.
Proof.
  intros a b c [Hab (n1 & H1 & P1)] [Hbc (n2 & H2 & P2)]. split; [congruence | ].
  exists (n1 ++ n2)%list. rewrite H2, H1, <- app_assoc. split; [reflexivity | ].
  now apply Forall_app.
Qed.

#[local] Instance sends_probes_refl : Reflexive sends_probes.
Proof. intros st. split; [reflexivity | ]. exists []. now rewrite app_nil_r. Qed.

#[local] Instance sends_probes_trans : Transitive sends_probes.
Proof.
  intros a b c [Hab (n1 & H1 & P1)] [Hbc (n2 & H2 & P2)]. split; [congruence | ].
  exists (n1 ++ n2)%list. rewrite H2, H1, <- app_assoc. split; [reflexivity | ].
  apply Forall_app. split; [assumption | ]. now rewrite Hab in P2.
Qed.

#[local] Instance stays_out_refl : Reflexive stays_out.
Proof. intros st H. exact H. Qed.

#[local] Instance stays_out_trans : Transitive stays_out.
Proof. intros a b c Hab Hbc H. apply Hab, Hbc, H. Qed.

Ltac plain_leaf :=
  split;
  [ reflexivity
  | reduce_state;
    first [ exists []; split; [symmetry; apply app_nil_r | constructor]
          | eexists [_]; split; [reflexivity | repeat constructor] ] ].

Ltac stays_out_leaf := intros ?; reduce_state; first [assumption | discriminate].

Lemma callbacks_send_plain (h : Handler) (r : Response) (m : M unit) :
  deliver h r = Some m ->
  (forall v, r = Success (BJson v) -> h <> login_success) ->
  (forall l, r = Success (BUsers l) -> h <> successful) ->
  keeps sends_plain m.
Proof.
  intros Hd Hlogin Hprobe.
  destruct h, r as [[v | l | u] | e]; cbn in Hd; simplify_eq;
    try (now destruct (Hlogin _ eq_refl)); try (now destruct (Hprobe _ eq_refl));
    unfold Index.studentUsers_cb, Index.createList_cb,
      DashTeacher.studentUsers_cb, DashTeacher.createList_cb;
    unfold_handlers; unfold_calls; frame plain_leaf.
Qed.

Lemma submit_sends_plain (s : Script) (name : option string) :
  keeps sends_plain (on_submit s name).
Proof.
  destruct s; unfold on_submit; unfold_handlers; unfold_calls; frame plain_leaf.
Qed.

Lemma callbacks_stay_out (h : Handler) (r : Response) (m : M unit) :
  deliver h r = Some m ->
  (forall b, r = Success b -> h <> loadAuthorized) ->
  keeps stays_out m.
Proof.
  intros Hd Hprobe.
  destruct h, r as [[v | l | u] | e]; cbn in Hd; simplify_eq;
    try (now destruct (Hprobe _ eq_refl));
    unfold Index.studentUsers_cb, Index.successful_cb, Index.createList_cb,
      DashTeacher.studentUsers_cb, DashTeacher.createList_cb;
    unfold_handlers; unfold_calls; frame stays_out_leaf.
Qed.

Lemma submit_stays_out (s : Script) (name : option string) :
  keeps stays_out (on_submit s name).
Proof.
  destruct s; unfold on_submit; unfold_handlers; unfold_calls; frame stays_out_leaf.
Qed.

Lemma ready_stays_out (s : Script) : keeps stays_out (ready s).
Proof.
  destruct s; unfold ready; unfold_handlers; unfold_calls; frame stays_out_leaf.
Qed.

Lemma successful_sends_probes (l : list User) : keeps sends_probes (Index.successful_cb l).
Proof.
  unfold Index.successful_cb. apply keeps_for_each; [exact _ | exact _ | ].
  intros u st. unfold_calls. reduce_state.
  destruct (strict_eq (username u) _ && strict_eq (isAdmin u) (Some (JBool true))).
  - destruct (get_prop "authToken" (JWT_TOKEN (APP st))) as [v | e] eqn:Hv;
      reduce_state; [ | reflexivity].
    split; [reflexivity | ]. eexists [_]. split; [reflexivity | ].
    repeat constructor. cbn. eauto.
  - destruct (strict_eq (username u) _ && strict_eq (isAdmin u) (Some (JBool false)));
      reflexivity.
Qed.

Lemma issued_app (cs news : list Call) (tok : json) :
  issued cs tok -> issued (cs ++ news) tok.
Proof.
  intros (c & Hin & Hh & Hs). exists c. split; [ | auto].
  apply elem_of_app. now left.
Qed.

Lemma well_sent_app (cs news : list Call) (cur : json) (c : Call) :
  well_sent cs cur c -> well_sent (cs ++ news) cur c.
Proof.
  unfold well_sent. destruct (handler c); try exact (fun H => H).
  - intros [Hr Hi]. split; [exact Hr | now apply issued_app].
  - intros (tok & v & Hi & Hv & Hr). exists tok, v. split; [now apply issued_app | auto].
Qed.

Lemma plain_well_sent (cs : list Call) (cur : json) (c : Call) :
  plain c -> well_sent cs cur c.
Proof. unfold well_sent, plain. destruct (handler c); tauto. Qed.

Lemma issued_answer (cs : list Call) (n : nat) (c : Call) (r : Response) (tok : json) :
  cs !! n = Some c -> settled c = None ->
  issued cs tok -> issued (alter (answer r) n cs) tok.
Proof.
  intros Hc Hs (c0 & Hin & Hh & Hs0). exists c0. split; [ | auto].
  apply list_elem_of_lookup in Hin as [i Hi]. apply list_elem_of_lookup. exists i.
  destruct (decide (n = i)) as [-> | Hne].
  - rewrite Hi in Hc. injection Hc as ->. congruence.
  - now rewrite list_lookup_alter_ne.
Qed.

Lemma well_sent_answer (cs : list Call) (n : nat) (c : Call) (r : Response)
    (cur : json) (c' : Call) :
  cs !! n = Some c -> settled c = None ->
  well_sent cs cur c' -> well_sent (alter (answer r) n cs) cur c'.
Proof.
  intros Hc Hs. unfold well_sent. destruct (handler c'); try exact (fun H => H).
  - intros [Hr Hi]. split; [exact Hr | now apply (issued_answer cs n c)].
  - intros (tok & v & Hi & Hv & Hr). exists tok, v.
    split; [now apply (issued_answer cs n c) | auto].
Qed.

Lemma well_sent_answered (cs : list Call) (cur : json) (r : Response) (c : Call) :
  well_sent cs cur c -> well_sent cs cur (answer r c).
Proof. exact (fun H => H). Qed.

(** Settling a pending call keeps the page in order. *)
Lemma page_ok_settle (st : Browser) (n : nat) (c : Call) (r : Response) :
  calls st !! n = Some c -> settled c = None ->
  page_ok st -> page_ok (settle n r st).
Proof.
  intros Hc Hs Hok. unfold page_ok, settle in *. reduce_state.
  fold (answer r). apply Forall_forall. intros c' Hin.
  apply list_elem_of_lookup in Hin as [i Hi].
  rewrite list_lookup_alter in Hi.
  destruct (decide (n = i)) as [-> | Hne].
  - rewrite Hc in Hi. cbn in Hi. injection Hi as <-.
    apply well_sent_answered, (well_sent_answer _ _ c); [assumption .. | ].
    eapply Forall_lookup_1; eassumption.
  - apply (well_sent_answer _ _ c); [assumption .. | ].
    eapply Forall_lookup_1; eassumption.
Qed.

Lemma page_ok_sends_plain (st st' : Browser) :
  page_ok st -> sends_plain st st' -> page_ok st'.
Proof.
  unfold page_ok. intros Hok [Htok (news & -> & Hnew)]. rewrite Htok.
  apply Forall_app. split.
  - eapply Forall_impl; [exact Hok | ]. intros c. apply well_sent_app.
  - eapply Forall_impl; [exact Hnew | ]. intros c. apply plain_well_sent.
Qed.

Lemma page_ok_sends_probes (st st' : Browser) :
  issued (calls st) (JWT_TOKEN (APP st)) ->
  page_ok st -> sends_probes st st' -> page_ok st'.
Proof.
  unfold page_ok. intros Hi Hok [Htok (news & -> & Hnew)]. rewrite Htok.
  apply Forall_app. split.
  - eapply Forall_impl; [exact Hok | ]. intros c. apply well_sent_app.
  - eapply Forall_impl; [exact Hnew | ]. intros c (Hh & v & Hv & Hr).
    unfold well_sent. rewrite Hh. exists (JWT_TOKEN (APP st)), v.
    split; [now apply issued_app | auto].
Qed.

#[local] Instance sends_nothing_refl : Reflexive sends_nothing.
Proof. intros st. reflexivity. Qed.

#[local] Instance sends_nothing_trans : Transitive sends_nothing.
Proof. intros a b c Hab Hbc. unfold sends_nothing in *. congruence. Qed.

Lemma index_ready_sends_nothing : keeps sends_nothing Index.ready.
Proof.
  unfold_handlers; unfold_calls; frame ltac:(reflexivity).
Qed.

Lemma deliver_cases (h : Handler) (r : Response) (m : M unit) :
  deliver h r = Some m ->
  (exists v, h = login_success /\ r = Success (BJson v)
             /\ m = (Index.login_success_cb v ;; ret tt)) \/
  (exists l, h = successful /\ r = Success (BUsers l) /\ m = Index.successful_cb l) \/
  keeps sends_plain m.
Proof.
  intros Hd. pose proof (callbacks_send_plain h r m Hd) as Hplain.
  destruct h, r as [[v | l | u] | e]; cbn in Hd; try discriminate Hd;
    first
      [ left; eexists; split; [reflexivity | split; [reflexivity | congruence]]
      | right; left; eexists; split; [reflexivity | split; [reflexivity | congruence]]
      | right; right; apply Hplain; intros ? ? ?; congruence ].
Qed.

Lemma login_success_effect (v : json) (st : Browser) :
  exec (Index.login_success_cb v ;; ret tt) st
  = set_calls (calls st ++ [{| request := login_users_request; handler := successful;
                               settled := None |}])
      (set_console (console st ++ [[LJson v]])
         (set_cookies (<["APP_TOKEN" := Json.stringify v]> (cookies st))
            (set_APP (set_JWT_TOKEN v (APP st)) st))).
Proof. run_handler. reflexivity. Qed.

(** Every event keeps the requests of the page in order. *)
Lemma step_page_ok (st : Browser) (ev : Event) : page_ok st -> page_ok (step st ev).
Proof.
  intros Hok. destruct ev as [p | sel v | [ | ] | name | n r]; cbn [step].
  - destruct p as [ | info]; cbn [script_of ready].
    + pose proof (keeps_exec _ _ (fresh_page index_page (cookies st) (href st))
                    index_ready_sends_nothing) as Hnone.
      unfold page_ok. rewrite Hnone. constructor.
    + apply (page_ok_sends_plain (fresh_page (teacher_dash_page info) (cookies st) (href st))).
      * constructor.
      * unfold_handlers; unfold_calls. reduce_state.
        split; [reflexivity | ]. eexists [_]. split; [reflexivity | repeat constructor].
  - exact Hok.
  - exact Hok.
  - exact Hok.
  - destruct (listening st) as [s | ]; [ | exact Hok].
    eapply page_ok_sends_plain; [exact Hok | apply submit_sends_plain].
  - destruct (calls st !! n) as [c | ] eqn:Hc; [ | exact Hok].
    destruct (settled c) eqn:Hs; [exact Hok | ].
    destruct (deliver (handler c) r) as [m | ] eqn:Hd; [ | exact Hok].
    pose proof (page_ok_settle st n c r Hc Hs Hok) as Hok1.
    assert (Hn : calls (settle n r st) !! n = Some (answer r c)).
    { unfold settle. reduce_state. fold (answer r).
      rewrite list_lookup_alter_eq, Hc. reflexivity. }
    destruct (deliver_cases _ _ _ Hd)
      as [(v & Hh & -> & ->) | [(l & Hh & -> & ->) | Hplain]].
    + rewrite login_success_effect. unfold page_ok in *. reduce_state.
      assert (Hi : issued (calls (settle n (Success (BJson v)) st) ++
                     [{| request := login_users_request; handler := successful;
                         settled := None |}]) v).
      { apply issued_app. exists (answer (Success (BJson v)) c).
        split; [eapply list_elem_of_lookup_2; exact Hn | split; [exact Hh | reflexivity]]. }
      apply Forall_app. split.
      * eapply Forall_impl; [exact Hok1 | ]. intros c' Hc'.
        unfold well_sent in *. destruct (handler c'); try exact Hc'.
        -- destruct Hc' as [Hr _]. split; [exact Hr | exact Hi].
        -- destruct Hc' as (tok & v' & Hi' & Hv & Hr). exists tok, v'.
           split; [now apply issued_app | auto].
      * repeat constructor. exact Hi.
    + eapply page_ok_sends_probes; [ | exact Hok1 | apply successful_sends_probes].
      pose proof (Forall_lookup_1 _ _ _ _ Hok1 Hn) as Hw.
      unfold well_sent in Hw. cbn [answer handler] in Hw. rewrite Hh in Hw. apply Hw.
    + eapply page_ok_sends_plain; [exact Hok1 | apply Hplain].
Qed.

Lemma run_page_ok (evs : list Event) (st : Browser) : page_ok st -> page_ok (run st evs).
Proof.
  revert st. induction evs as [ | ev evs IH]; intros st Hok; [exact Hok | ].
  apply IH, step_page_ok, Hok.
Qed.

(** On a page reached from a fresh one, every request is in order. *)
Lemma reachable_page_ok (p : Page) (jar : gmap string string) (address : string)
    (evs : list Event) :
  page_ok (run (fresh_page p jar address) evs).
Proof. apply run_page_ok. constructor. Qed.

(** ** The token on outgoing requests *)

(** C1 as stated fails: the users read that follows a successful login is
    sent without any header, although the token is then held in the
    session and in the cookie. *)
Lemma users_request_after_login_has_no_token :
  let st := run (fresh_page index_page ∅ "login.html")
                [Load index_page; Input "#username" "teach"; Input "#password" "pw";
                 Submit (Some "login"); Reply 0 (Success (BJson token))] in
  JWT_TOKEN (APP st) = token /\
  cookies st !! "APP_TOKEN" = Some (Json.stringify token) /\
  exists c, calls st !! 1 = Some c /\ type (request c) = "GET"
            /\ url (request c) = "/api/users/" /\ headers (request c) = [].
Proof.
  cbv zeta. split; [vm_compute; reflexivity | split; [vm_compute; reflexivity | ]].
  eexists. split; [vm_compute; reflexivity | repeat split].
Qed.

(** C1 (amended): a successful login puts the token in the session and in
    the [APP_TOKEN] cookie.  Of the reads the client sends, only the
    [/api/protected] probe carries it: its single header is
    [Authorization: Bearer] followed by the [authToken] of a token issued
    to this page by a login; every [GET] of [/api/users] is sent without
    headers. *)
Theorem token_sent_to_probe_only (p : Page) (jar : gmap string string) (address : string)
    (evs : list Event) :
  (forall n c tok,
     calls (run (fresh_page p jar address) evs) !! n = Some c ->
     settled c = None -> handler c = login_success ->
     JWT_TOKEN (APP (step (run (fresh_page p jar address) evs)
                       (Reply n (Success (BJson tok))))) = tok /\
     cookies (step (run (fresh_page p jar address) evs) (Reply n (Success (BJson tok))))
       !! "APP_TOKEN" = Some (Json.stringify tok)) /\
  (forall c,
     c ∈ calls (run (fresh_page p jar address) evs) ->
     type (request c) = "GET" ->
     (url (request c) = "/api/protected" ->
      exists tok v,
        issued (calls (run (fresh_page p jar address) evs)) tok /\
        get_prop "authToken" tok = Done v /\
        headers (request c) = [("Authorization", "Bearer " +:+ ToString v)]) /\
     (url (request c) = "/api/users" \/ url (request c) = "/api/users/" ->
      headers (request c) = [])).
Proof.
  split.
  - intros n c tok Hc Hs Hh. cbn [step]. rewrite Hc, Hs, Hh. cbn [deliver].
    rewrite login_success_effect. reduce_state. split; [reflexivity | ].
    apply lookup_insert_eq.
  - intros c Hin Hget.
    pose proof (reachable_page_ok p jar address evs) as Hok.
    unfold page_ok in Hok. rewrite Forall_forall in Hok. specialize (Hok c Hin).
    unfold well_sent, plain in Hok. destruct (handler c).
    all: try (rewrite Hok in Hget; discriminate Hget).
    + destruct Hok as [-> _]. split; [discriminate | reflexivity].
    + destruct Hok as (tok & v & Hi & Hv & ->). split; [ | intros [H | H]; discriminate H].
      intros _. exists tok, v. auto.
    + rewrite Hok. split; [discriminate | reflexivity].
    + rewrite Hok. split; [discriminate | reflexivity].
    + rewrite Hok. split; [discriminate | reflexivity].
Qed.

Lemma token_sent_to_probe_only_witness :
  let st := run (fresh_page index_page ∅ "login.html") login_trace in
  exists c, calls st !! 2 = Some c /\
    url (request c) = "/api/protected" /\
    exists tok v, issued (calls st) tok /\ get_prop "authToken" tok = Done v /\
                  headers (request c) = [("Authorization", "Bearer " +:+ ToString v)].
Proof.
  cbv zeta.
  destruct (calls (run (fresh_page index_page ∅ "login.html") login_trace) !! 2)
    as [c | ] eqn:Hc; [ | vm_compute in Hc; discriminate Hc].
  assert (Hcall : type (request c) = "GET" /\ url (request c) = "/api/protected").
  { pose proof Hc as Hc'. vm_compute in Hc'. injection Hc' as <-. split; reflexivity. }
  destruct Hcall as [Hget Hurl].
  exists c. split; [reflexivity | ]. split; [exact Hurl | ].
  destruct (token_sent_to_probe_only index_page ∅ "login.html" login_trace) as [_ Hreq].
  destruct (Hreq c (list_elem_of_lookup_2 _ _ _ Hc) Hget) as [Hprobe _].
  exact (Hprobe Hurl).
Defined.

(** ** Entering the teacher dashboard *)

(** C3: on a page reached from a fresh one, an event takes the browser to
    [teacher-dash.html] only if it is the successful answer to a pending
    [GET /api/protected] probe whose bearer header carries the [authToken]
    of a token issued to this page by a login; and the refusal of a probe
    leaves the address as it is. *)
Theorem dashboard_only_after_probe (p : Page) (jar : gmap string string) (address : string)
    (evs : list Event) (ev : Event) :
  (href (step (run (fresh_page p jar address) evs) ev) = "teacher-dash.html" ->
   href (run (fresh_page p jar address) evs) <> "teacher-dash.html" ->
   exists n b c tok v,
     ev = Reply n (Success b) /\
     calls (run (fresh_page p jar address) evs) !! n = Some c /\
     settled c = None /\
     request c = probe_request v /\
     issued (calls (run (fresh_page p jar address) evs)) tok /\
     get_prop "authToken" tok = Done v) /\
  (forall n c e,
     ev = Reply n (Failure e) ->
     calls (run (fresh_page p jar address) evs) !! n = Some c ->
     handler c = loadAuthorized ->
     href (step (run (fresh_page p jar address) evs) ev)
     = href (run (fresh_page p jar address) evs)).
Proof.
  pose proof (reachable_page_ok p jar address evs) as Hok.
  set (st := run (fresh_page p jar address) evs) in *. clearbody st.
  split.
  - intros Hdash Hout.
    destruct ev as [p' | sel v | [ | ] | name | n r]; cbn [step] in Hdash.
    + destruct Hout.
      apply (ready_stays_out (script_of p') (fresh_page p' (cookies st) (href st))), Hdash.
    + destruct Hout. exact Hdash.
    + discriminate Hdash.
    + discriminate Hdash.
    + destruct (listening st) as [s | ]; [ | now destruct Hout].
      destruct Hout. apply (submit_stays_out s name st), Hdash.
    + destruct (calls st !! n) as [c | ] eqn:Hc; [ | now destruct Hout].
      destruct (settled c) eqn:Hs; [now destruct Hout | ].
      destruct (deliver (handler c) r) as [m | ] eqn:Hd; [ | now destruct Hout].
      assert (Hcase : (exists b, r = Success b /\ handler c = loadAuthorized) \/
                      (forall b, r = Success b -> handler c <> loadAuthorized)).
      { destruct r as [b | e]; [ | right; congruence].
        destruct (handler c); first [left; eauto; fail | right; congruence]. }
      destruct Hcase as [(b & -> & Hh) | Hother].
      * unfold page_ok in Hok.
        pose proof (Forall_lookup_1 _ _ _ _ Hok Hc) as Hw.
        unfold well_sent in Hw. rewrite Hh in Hw.
        destruct Hw as (tok & v & Hi & Hv & Hr).
        exists n, b, c, tok, v. auto 10.
      * destruct Hout.
        apply (callbacks_stay_out _ _ _ Hd Hother (settle n r st)), Hdash.
  - intros n c e -> Hc Hh. cbn [step]. rewrite Hc.
    destruct (settled c); [reflexivity | ].
    rewrite Hh. cbn [deliver]. run_handler. reflexivity.
Qed.

Lemma dashboard_only_after_probe_witness :
  let st := run (fresh_page index_page ∅ "login.html") login_trace in
  href (step st (Reply 2 (Success (BJson JNull)))) = "teacher-dash.html" /\
  href st <> "teacher-dash.html" /\
  exists n b c tok v,
    Reply 2 (Success (BJson JNull)) = Reply n (Success b) /\
    calls st !! n = Some c /\ settled c = None /\ request c = probe_request v /\
    issued (calls st) tok /\ get_prop "authToken" tok = Done v.
Proof.
  cbv zeta.
  assert (Hin : href (step (run (fresh_page index_page ∅ "login.html") login_trace)
                        (Reply 2 (Success (BJson JNull)))) = "teacher-dash.html")
    by (vm_compute; reflexivity).
  assert (Hout : href (run (fresh_page index_page ∅ "login.html") login_trace)
                 <> "teacher-dash.html")
    by (vm_compute; discriminate).
  split; [exact Hin | ]. split; [exact Hout | ].
  destruct (dashboard_only_after_probe index_page ∅ "login.html" login_trace
              (Reply 2 (Success (BJson JNull)))) as [Honly _].
  exact (Honly Hin Hout).
Defined.

(** * Further properties of the scripts *)

(** ** The navigation bar *)

(** X1: whatever class the navigation bar starts with, the first call of
    [navDropDown] leaves it with [topnav] or [topnav responsive], and from
    then on every two calls bring the same class back; a bar that starts as
    [topnav] is back to it after two calls, and any other class is replaced
    by [topnav] at the first call. *)
Theorem navDropDown_toggles (c : string) :
  exists c1 c2,
    Index.navDropDown (Some c) = Done c1 /\
    Index.navDropDown (Some c1) = Done c2 /\
    Index.navDropDown (Some c2) = Done c1 /\
    (c1 = "topnav" \/ c1 = "topnav responsive") /\
    (c = "topnav" -> c2 = c) /\
    (c <> "topnav" -> c1 = "topnav").
Proof.
  unfold Index.navDropDown. destruct (String.eqb_spec c "topnav") as [-> | Hne].
  - exists "topnav responsive", "topnav". repeat split; auto. now intros [].
  - exists "topnav", "topnav responsive". repeat split; auto. intros ->. now destruct Hne.
Qed.

(** ** The add-item flow *)

Lemma set_calls_same (st : Browser) : set_calls (calls st ++ []) st = st.
Proof. destruct st. cbn. now rewrite app_nil_r. Qed.

Lemma set_calls_twice (st : Browser) (a b : list Call) :
  set_calls (calls (set_calls (calls st ++ a) st) ++ b) (set_calls (calls st ++ a) st)
  = set_calls (calls st ++ a ++ b) st.
Proof. destruct st. cbn. now rewrite <- app_assoc. Qed.

(** A loop whose body sends one request for the elements that pass a test,
    and nothing for the others, on the states where [good] holds. *)
Lemma for_each_sends {A} (good : Browser -> Prop) (test : Browser -> A -> bool)
    (call : Browser -> A -> Call) (body : A -> M unit) (l : list A) :
  (forall st news, good st -> good (set_calls (calls st ++ news) st)) ->
  (forall st news x, test (set_calls (calls st ++ news) st) x = test st x) ->
  (forall st news x, call (set_calls (calls st ++ news) st) x = call st x) ->
  (forall st x,
     good st ->
     body x st = (Done tt, if test st x then set_calls (calls st ++ [call st x]) st else st)) ->
  forall st,
    good st ->
    for_each l body st
    = (Done tt, set_calls (calls st ++ map (call st) (List.filter (test st) l)) st).
Proof.
  intros Hgood Htest Hcall Hbody.
  assert (Hfilter : forall st news r,
            List.filter (test (set_calls (calls st ++ news) st)) r = List.filter (test st) r).
  { intros st news r. induction r as [ | y r IHr]; cbn [List.filter]; [reflexivity | ].
    now rewrite Htest, IHr. }
  induction l as [ | x r IH]; intros st Hst; cbn [for_each List.filter map].
  - unfold ret. now rewrite set_calls_same.
  - unfold bind. rewrite Hbody by assumption.
    destruct (test st x) eqn:Hx; [ | now apply IH].
    rewrite IH, Hfilter by now apply Hgood.
    rewrite (map_ext _ (call st)) by (intros u; apply Hcall).
    cbn [map]. now rewrite set_calls_twice.
Qed.

(** A loop whose body throws at the elements that pass a test and does
    nothing otherwise stops at the first of them, the state untouched. *)
Lemma for_each_throws {A} (e : js_error) (test : A -> bool) (body : A -> M unit)
    (l : list A) (st : Browser) :
  (forall x, body x st = (if test x then Thrown e else Done tt, st)) ->
  for_each l body st = (if existsb test l then Thrown e else Done tt, st).
Proof.
  intros Hbody. induction l as [ | x r IH]; cbn [for_each existsb]; [reflexivity | ].
  unfold bind. rewrite Hbody. destruct (test x); [reflexivity | exact IH].
Qed.

(** X2: given the users list, [studentUsers] of [index.js] returns normally
    and sends one assignment-creating [POST], without any header, for each
    entry whose [username] is the typed one and whose [isAdmin] is [false],
    in the order of the list, built from the fields as they are when the
    list arrives; it sends nothing for the other entries and changes nothing
    else. *)
Theorem index_add_item_requests (listUsers : list User) (st : Browser) :
  Index.studentUsers_cb listUsers st
  = (Done tt,
     set_calls (calls st ++ map (assignment_post st [] createList)
                              (List.filter (is_target st) listUsers)) st).
Proof.
  unfold Index.studentUsers_cb.
  apply (for_each_sends (fun _ => True) is_target (fun st => assignment_post st [] createList));
    [auto | reflexivity | reflexivity | | exact I].
  intros s u _. unfold_calls. reduce_state. unfold is_target.
  destruct (strict_eq (username u) _ && strict_eq (isAdmin u) _); reflexivity.
Qed.

Example index_add_item_sample :
  map (fun c => (url (request c), data (request c)))
      (drop 1 (calls (run (fresh_page index_page ∅ "teacher-dash.html") add_item_trace)))
  = [("/api/users/u1",
      Some (Json.stringify (JObj [("id", JStr "u1"); ("assignmentName", JStr "Essay 1");
                                  ("assignmentDate", JStr "2024-10-01")])))].
Proof. vm_compute. reflexivity. Qed.

Lemma teacher_studentUsers_sends (listUsers : list User) (st : Browser) (v : jsval) :
  get_prop_of "authToken" (LOGIN_INFO (APP st)) = Done v ->
  DashTeacher.studentUsers_cb listUsers st
  = (Done tt,
     set_calls (calls st ++ map (assignment_post st (bearer v) teacher_createList)
                              (List.filter (is_target st) listUsers)) st).
Proof.
  intros Hv. unfold DashTeacher.studentUsers_cb.
  apply (for_each_sends
           (fun s => get_prop_of "authToken" (LOGIN_INFO (APP s)) = Done v)
           is_target (fun s => assignment_post s (bearer v) teacher_createList));
    [auto | reflexivity | reflexivity | | exact Hv].
  intros s u Hs. unfold_calls. reduce_state. unfold is_target.
  destruct (strict_eq (username u) _ && strict_eq (isAdmin u) _); [ | reflexivity].
  rewrite Hs. reflexivity.
Qed.

Lemma teacher_studentUsers_throws (listUsers : list User) (st : Browser) (e : js_error) :
  get_prop_of "authToken" (LOGIN_INFO (APP st)) = Thrown e ->
  DashTeacher.studentUsers_cb listUsers st
  = (if existsb (is_target st) listUsers then Thrown e else Done tt, st).
Proof.
  intros He. unfold DashTeacher.studentUsers_cb. apply for_each_throws.
  intros u. unfold_calls. reduce_state. unfold is_target.
  destruct (strict_eq (username u) _ && strict_eq (isAdmin u) _); [ | reflexivity].
  rewrite He. reflexivity.
Qed.

(** X3: [studentUsers] of [dash-teacher.js] sends the same requests as the
    one of [index.js], each with the header [Authorization: Bearer] followed
    by [APP.LOGIN_INFO.authToken], when that token can be read; when
    [APP.LOGIN_INFO] is [undefined] or [null] it throws at the first entry
    that qualifies, sends nothing and leaves the state as it was. *)
Theorem teacher_add_item_requests (listUsers : list User) (st : Browser) :
  (forall v,
     get_prop_of "authToken" (LOGIN_INFO (APP st)) = Done v ->
     DashTeacher.studentUsers_cb listUsers st
     = (Done tt,
        set_calls (calls st ++ map (assignment_post st (bearer v) teacher_createList)
                                 (List.filter (is_target st) listUsers)) st)) /\
  (forall e,
     get_prop_of "authToken" (LOGIN_INFO (APP st)) = Thrown e ->
     DashTeacher.studentUsers_cb listUsers st
     = (if existsb (is_target st) listUsers then Thrown e else Done tt, st)).
Proof.
  split.
  - intros v. apply teacher_studentUsers_sends.
  - intros e. apply teacher_studentUsers_throws.
Qed.

(** ** The login flow *)

Lemma map_const_replicate {A B} (b : B) (l : list A) :
  map (fun _ => b) l = replicate (length l) b.
Proof. induction l as [ | x r IH]; cbn; [reflexivity | now rewrite IH]. Qed.

Lemma existsb_filter_nil {A} (f : A -> bool) (l : list A) :
  List.filter f l = [] -> existsb f l = false.
Proof.
  induction l as [ | x r IH]; cbn; [reflexivity | ].
  destruct (f x); [discriminate | exact IH].
Qed.

(** X9: when the users list of the login flow arrives, [successful] sends
    one [/api/protected] probe, all alike, for each entry whose [username]
    is the typed one and whose [isAdmin] is [true], and changes nothing
    else; if the session token is [null] it throws at the first such entry
    and sends nothing.  When no entry qualifies (a student logs in, or the
    name is not in the list) the state is left exactly as it was. *)
Theorem login_probes (jsonRes : list User) (st : Browser) :
  (forall v,
     get_prop "authToken" (JWT_TOKEN (APP st)) = Done v ->
     Index.successful_cb jsonRes st
     = (Done tt,
        set_calls (calls st ++ replicate (length (List.filter (is_admin_match st) jsonRes))
                                         (probe_call v)) st)) /\
  (forall e,
     get_prop "authToken" (JWT_TOKEN (APP st)) = Thrown e ->
     Index.successful_cb jsonRes st
     = (if existsb (is_admin_match st) jsonRes then Thrown e else Done tt, st)) /\
  (List.filter (is_admin_match st) jsonRes = [] ->
   Index.successful_cb jsonRes st = (Done tt, st)).
Proof.
  assert (Hsends : forall v,
            get_prop "authToken" (JWT_TOKEN (APP st)) = Done v ->
            Index.successful_cb jsonRes st
            = (Done tt,
               set_calls (calls st ++ replicate (length (List.filter (is_admin_match st) jsonRes))
                                                (probe_call v)) st)).
  { intros v Hv. unfold Index.successful_cb. rewrite <- map_const_replicate.
    apply (for_each_sends
             (fun s => get_prop "authToken" (JWT_TOKEN (APP s)) = Done v)
             is_admin_match (fun _ _ => probe_call v));
      [auto | reflexivity | reflexivity | | exact Hv].
    intros s u Hs. unfold_calls. reduce_state. unfold is_admin_match.
    destruct (strict_eq (username u) _ && strict_eq (isAdmin u) (Some (JBool true))).
    - rewrite Hs. reflexivity.
    - destruct (strict_eq (username u) _ && strict_eq (isAdmin u) _); reflexivity. }
  assert (Hthrows : forall e,
            get_prop "authToken" (JWT_TOKEN (APP st)) = Thrown e ->
            Index.successful_cb jsonRes st
            = (if existsb (is_admin_match st) jsonRes then Thrown e else Done tt, st)).
  { intros e He. unfold Index.successful_cb. apply for_each_throws.
    intros u. unfold_calls. reduce_state. unfold is_admin_match.
    destruct (strict_eq (username u) _ && strict_eq (isAdmin u) (Some (JBool true))).
    - rewrite He. reflexivity.
    - destruct (strict_eq (username u) _ && strict_eq (isAdmin u) _); reflexivity. }
  split; [exact Hsends | split; [exact Hthrows | ]].
  intros Hnone. destruct (get_prop "authToken" (JWT_TOKEN (APP st))) as [v | e] eqn:Hp.
  - rewrite (Hsends v eq_refl), Hnone. cbn [length replicate]. now rewrite set_calls_same.
  - rewrite (Hthrows e eq_refl), (existsb_filter_nil _ _ Hnone). reflexivity.
Qed.

Example student_login_goes_nowhere :
  let st := run (fresh_page index_page ∅ "login.html")
                [Load index_page; Input "#username" "alice"; Input "#password" "pw";
                 Submit (Some "login"); Reply 0 (Success (BJson token))] in
  href (step st (Reply 1 (Success (BUsers [alice; teacher])))) = "login.html" /\
  length (calls (step st (Reply 1 (Success (BUsers [alice; teacher]))))) = 2.
Proof. cbv zeta. split; vm_compute; reflexivity. Qed.

(** ** What no event does *)

Section StepFrames.
Context (R : relation Browser) `{!Reflexive R, !Transitive R}.
Hypothesis R_input : forall st sel v,
  R st (set_dom (set_inputs (<[sel := v]> (inputs (dom st))) (dom st)) st).
Hypothesis R_click : forall st b, R st (step st (Click b)).
Hypothesis R_submit : forall s name, keeps R (on_submit s name).
Hypothesis R_settle : forall st n r, R st (settle n r st).

(** An event other than a page load relates the states around it as soon
    as the callback it runs, if any, does. *)
Lemma step_keeps (st : Browser) (ev : Event) :
  (forall p, ev <> Load p) ->
  (forall n r c m,
     ev = Reply n r -> calls st !! n = Some c -> settled c = None ->
     deliver (handler c) r = Some m -> keeps R m) ->
  R st (step st ev).
Proof.
  intros Hload Hreply. destruct ev as [p | sel v | b | name | n r].
  - now destruct (Hload p).
  - apply R_input.
  - apply R_click.
  - cbn [step]. destruct (listening st) as [s | ]; [apply R_submit | reflexivity].
  - cbn [step]. destruct (calls st !! n) as [c | ] eqn:Hc; [ | reflexivity].
    destruct (settled c) eqn:Hs; [reflexivity | ].
    destruct (deliver (handler c) r) as [m | ] eqn:Hd; [ | reflexivity].
    etransitivity; [apply (R_settle st n r) | ].
    apply (Hreply n r c m eq_refl Hc Hs Hd).
Qed.

End StepFrames.

#[local] Instance same_jar_refl : Reflexive same_jar.
Proof. intros st. reflexivity. Qed.

#[local] Instance same_jar_trans : Transitive same_jar.
Proof. intros a b c Hab Hbc. unfold same_jar in *. congruence. Qed.

#[local] Instance same_session_refl : Reflexive same_session.
Proof. intros st. reflexivity. Qed.

#[local] Instance same_session_trans : Transitive same_session.
Proof. intros a b c Hab Hbc. unfold same_session in *. congruence. Qed.

#[local] Instance same_listening_refl : Reflexive same_listening.
Proof. intros st. reflexivity. Qed.

#[local] Instance same_listening_trans : Transitive same_listening.
Proof. intros a b c Hab Hbc. unfold same_listening in *. congruence. Qed.

Ltac unfold_loops :=
  unfold Index.studentUsers_cb, Index.successful_cb, Index.createList_cb,
    DashTeacher.studentUsers_cb, DashTeacher.createList_cb.

(** Only the callback of a successful login writes a cookie or the session. *)
Lemma callbacks_keep_jar (h : Handler) (r : Response) (m : M unit) :
  deliver h r = Some m ->
  (forall v, r = Success (BJson v) -> h <> login_success) ->
  keeps same_jar m /\ keeps same_session m.
Proof.
  intros Hd Hlogin.
  destruct h, r as [[v | l | u] | e]; cbn in Hd; simplify_eq;
    try (now destruct (Hlogin _ eq_refl));
    unfold_loops; unfold_handlers; unfold_calls;
    (split; frame ltac:(reflexivity)).
Qed.

Lemma submit_keeps_jar (s : Script) (name : option string) :
  keeps same_jar (on_submit s name) /\ keeps same_session (on_submit s name).
Proof.
  destruct s; unfold on_submit; unfold_handlers; unfold_calls;
    (split; frame ltac:(reflexivity)).
Qed.

Lemma ready_keeps_jar (s : Script) : keeps same_jar (ready s).
Proof.
  destruct s; unfold ready; unfold_handlers; unfold_calls; frame ltac:(reflexivity).
Qed.

Lemma login_or_not (h : Handler) (r : Response) :
  (exists v, r = Success (BJson v) /\ h = login_success) \/
  (forall v, r = Success (BJson v) -> h <> login_success).
Proof.
  destruct r as [[v | l | u] | e]; try (right; congruence).
  destruct h; first [left; eauto; fail | right; congruence].
Qed.

(** An event that fetches no page leaves the jar and the session alone,
    unless it answers a login. *)
Lemma step_store (st : Browser) (ev : Event) :
  (forall p, ev <> Load p) ->
  (cookies (step st ev) = cookies st /\ APP (step st ev) = APP st) \/
  exists n c tok,
    ev = Reply n (Success (BJson tok)) /\ calls st !! n = Some c /\
    settled c = None /\ handler c = login_success /\
    cookies (step st ev) = <["APP_TOKEN" := Json.stringify tok]> (cookies st) /\
    JWT_TOKEN (APP (step st ev)) = tok.
Proof.
  intros Hload. destruct ev as [p | sel v | b | name | n r].
  - now destruct (Hload p).
  - left. split; reflexivity.
  - left. destruct b; split; reflexivity.
  - left. cbn [step]. destruct (listening st) as [s | ]; [ | split; reflexivity].
    split; [apply (proj1 (submit_keeps_jar s name) st) | apply (proj2 (submit_keeps_jar s name) st)].
  - cbn [step]. destruct (calls st !! n) as [c | ] eqn:Hc; [ | now left].
    destruct (settled c) eqn:Hs; [now left | ].
    destruct (deliver (handler c) r) as [m | ] eqn:Hd; [ | now left].
    destruct (login_or_not (handler c) r) as [(tok & -> & Hh) | Hother].
    + right. exists n, c, tok. repeat split; try assumption;
        rewrite Hh in Hd; cbn in Hd; injection Hd as <-;
        rewrite login_success_effect; reflexivity.
    + left. destruct (callbacks_keep_jar _ _ _ Hd Hother) as [Hj Hse].
      split; [apply (Hj (settle n r st)) | apply (Hse (settle n r st))].
Qed.

(** One event writes the jar only when it answers a login. *)
Lemma step_jar (st : Browser) (ev : Event) :
  cookies (step st ev) = cookies st \/
  exists n c tok,
    ev = Reply n (Success (BJson tok)) /\ calls st !! n = Some c /\
    settled c = None /\ handler c = login_success /\
    cookies (step st ev) = <["APP_TOKEN" := Json.stringify tok]> (cookies st).
Proof.
  destruct ev as [p | sel v | b | name | n r];
    [ left; apply (ready_keeps_jar (script_of p) (fresh_page p (cookies st) (href st))) | .. ].
  all: match goal with |- context [step ?s ?ev] =>
         destruct (step_store s ev) as [[Hj _] | (n' & c & tok & H1 & H2 & H3 & H4 & H5 & _)];
           [discriminate | now left | right; exists n', c, tok; auto]
       end.
Qed.

(** X5: the client writes one cookie only.  An event changes the cookie
    jar only when it is the successful answer to a pending login request,
    and then [APP_TOKEN] becomes the JSON text of the answer; whatever the
    events, every cookie of another name keeps the value it had. *)
Theorem cookie_jar_writes (st : Browser) :
  (forall ev,
     cookies (step st ev) = cookies st \/
     exists n c tok,
       ev = Reply n (Success (BJson tok)) /\ calls st !! n = Some c /\
       settled c = None /\ handler c = login_success /\
       cookies (step st ev) = <["APP_TOKEN" := Json.stringify tok]> (cookies st)) /\
  (forall evs k, k <> "APP_TOKEN" -> cookies (run st evs) !! k = cookies st !! k).
Proof.
  split; [apply step_jar | ].
  intros evs k Hk. revert st. induction evs as [ | ev evs IH]; intros st; [reflexivity | ].
  cbn [run foldl]. fold (run (step st ev) evs). rewrite IH.
  destruct (step_jar st ev) as [-> | (n & c & tok & _ & _ & _ & _ & ->)]; [reflexivity | ].
  now apply lookup_insert_ne.
Qed.

(** What a page load does when the token cookie parses. *)
Lemma index_load_restores (st : Browser) (str : string) (tok : json) :
  cookies st !! "APP_TOKEN" = Some str ->
  Json.parse str = Some tok ->
  cookies (step st (Load index_page)) = cookies st /\
  JWT_TOKEN (APP (step st (Load index_page))) = tok.
Proof.
  intros Hjar Hparse. cbn [step script_of ready].
  run_handler. rewrite Hjar. cbn [truthy from_option Datatypes.id].
  destruct (String.eqb_spec str "") as [-> | _]; [discriminate Hparse | ].
  cbn [negb]. rewrite Hparse. reduce_state. split; reflexivity.
Qed.

Lemma step_in_sync (st : Browser) (ev : Event) :
  on_index ev -> answers_json ev -> in_sync st -> in_sync (step st ev).
Proof.
  intros Hpage Hjson (str & Hjar & Hparse).
  destruct ev as [[ | info] | sel v | b | name | n r].
  - destruct (index_load_restores st str _ Hjar Hparse) as [Hc Ht].
    exists str. rewrite Hc, Ht. split; assumption.
  - now destruct (Hpage info).
  - exists str. split; assumption.
  - exists str. destruct b; split; assumption.
  - destruct (step_store st (Submit name)) as [[Hj Ha] | (n' & c & tok & H1 & _)];
      [discriminate | | discriminate].
    exists str. rewrite Hj, Ha. split; assumption.
  - destruct (step_store st (Reply n r)) as [[Hj Ha] | (n' & c & tok & H1 & _ & _ & _ & Hj & Ht)];
      [discriminate | | ].
    + exists str. rewrite Hj, Ha. split; assumption.
    + exists (Json.stringify tok). rewrite Hj, Ht. split.
      * apply lookup_insert_eq.
      * apply JsonFacts.parse_stringify. exact (Hjson n' tok H1).
Qed.

(** X6: on the page of [index.js] the session token and the token cookie
    stay in step.  Once [APP.JWT_TOKEN] is the value the [APP_TOKEN] cookie
    parses to, it remains so through any reloads of the page, inputs,
    clicks, submissions and answers, failed or successful. *)
Theorem session_follows_cookie (st : Browser) (evs : list Event) :
  Forall on_index evs -> Forall answers_json evs ->
  in_sync st -> in_sync (run st evs).
Proof.
  intros Hpage Hjson. revert st.
  induction Hpage as [ | ev evs Hev _ IH]; intros st Hsync; [exact Hsync | ].
  apply Forall_cons in Hjson as [Hj Hjson].
  cbn [run foldl]. apply (IH Hjson). now apply step_in_sync.
Qed.

Lemma on_index_trace (evs : list Event) :
  forallb (fun ev => match ev with Load (teacher_dash_page _) => false | _ => true end) evs = true ->
  Forall on_index evs.
Proof.
  intros H. apply Forall_forall. intros ev Hin info ->.
  apply list_elem_of_In in Hin. rewrite List.forallb_forall in H.
  discriminate (H _ Hin).
Qed.

Lemma token_wf : Json.wf token.
Proof. cbn. repeat constructor; cbn; set_solver. Qed.

Lemma session_follows_cookie_witness :
  in_sync (fresh_page index_page {[ "APP_TOKEN" := "{}" ]} "login.html") /\
  in_sync (run (fresh_page index_page {[ "APP_TOKEN" := "{}" ]} "login.html")
               (login_trace ++ [Load index_page])).
Proof.
  assert (Hsync : in_sync (fresh_page index_page {[ "APP_TOKEN" := "{}" ]} "login.html")).
  { exists "{}". split; vm_compute; reflexivity. }
  split; [exact Hsync | ].
  apply session_follows_cookie; [ | | exact Hsync].
  - apply on_index_trace. reflexivity.
  - repeat constructor; intros n tok H; try discriminate H.
    injection H as _ <-. exact token_wf.
Defined.

(** ** A token cookie that does not parse *)

Lemma stalled_load (st : Browser) (str : string) :
  cookies st !! "APP_TOKEN" = Some str -> str <> "" -> Json.parse str = None ->
  stalled (step st (Load index_page)) /\
  cookies (step st (Load index_page)) = cookies st.
Proof.
  intros Hjar Hne Hparse. cbn [step script_of ready].
  run_handler. rewrite Hjar. cbn [truthy from_option Datatypes.id].
  destruct (String.eqb_spec str "") as [-> | _]; [now destruct Hne | ].
  cbn [negb]. rewrite Hparse. reduce_state. repeat split.
Qed.

Lemma stalled_step (st : Browser) (ev : Event) (str : string) :
  cookies st !! "APP_TOKEN" = Some str -> str <> "" -> Json.parse str = None ->
  on_index ev -> stalled st ->
  stalled (step st ev) /\ cookies (step st ev) = cookies st.
Proof.
  intros Hjar Hne Hparse Hpage (Hcalls & Hl & Happ).
  destruct ev as [[ | info] | sel v | b | name | n r].
  - now apply stalled_load with (str := str).
  - now destruct (Hpage info).
  - repeat split; assumption.
  - destruct b; repeat split; assumption.
  - cbn [step]. rewrite Hl. repeat split; assumption.
  - cbn [step]. rewrite Hcalls. cbn. repeat split; assumption.
Qed.

(** X7: a token cookie that is not empty and does not parse disables the
    page of [index.js].  The ready callback stops in [restoreLoginToken]
    before it registers the submit handler, so after the load, whatever
    the user submits, clicks or types and however often the page is
    reloaded, no request is sent, no handler listens, the session is the
    initial one and the cookie is still there. *)
Theorem malformed_cookie_disables_page (st : Browser) (str : string) (evs : list Event) :
  cookies st !! "APP_TOKEN" = Some str -> str <> "" -> Json.parse str = None ->
  Forall on_index evs ->
  calls (run st (Load index_page :: evs)) = [] /\
  listening (run st (Load index_page :: evs)) = None /\
  APP (run st (Load index_page :: evs)) = initial_APP /\
  cookies (run st (Load index_page :: evs)) = cookies st.
Proof.
  intros Hjar Hne Hparse Hpage. cbn [run foldl].
  destruct (stalled_load st str Hjar Hne Hparse) as [Hst Hc].
  rewrite <- Hc in Hjar. rewrite <- Hc. clear Hc.
  generalize dependent (step st (Load index_page)). clear st.
  induction Hpage as [ | ev evs Hev _ IH]; intros st Hjar Hst.
  - destruct Hst as (H1 & H2 & H3). repeat split; assumption.
  - cbn [foldl]. destruct (stalled_step st ev str Hjar Hne Hparse Hev Hst) as [Hst' Hc].
    rewrite <- Hc in Hjar. rewrite <- Hc. now apply IH.
Qed.

Lemma malformed_cookie_disables_page_witness :
  calls (run (fresh_page index_page {[ "APP_TOKEN" := "{oops" ]} "login.html")
             (Load index_page :: login_trace)) = [].
Proof.
  apply (malformed_cookie_disables_page
           (fresh_page index_page {[ "APP_TOKEN" := "{oops" ]} "login.html") "{oops" login_trace).
  - reflexivity.
  - intros H; inversion H.
  - vm_compute. reflexivity.
  - apply on_index_trace. reflexivity.
Defined.

(** ** Where the scripts navigate *)

#[local] Instance wanders_refl : Reflexive wanders.
Proof. intros st. left. reflexivity. Qed.

#[local] Instance wanders_trans : Transitive wanders.
Proof.
  intros a b c [Hab | Hab] [Hbc | Hbc]; unfold wanders.
  - left. congruence.
  - now right.
  - right. now rewrite Hbc.
  - now right.
Qed.

Ltac wanders_leaf :=
  unfold wanders, destinations; reduce_state;
  first [left; reflexivity | right; cbn [In]; tauto].

Lemma callbacks_wander (h : Handler) (r : Response) (m : M unit) :
  deliver h r = Some m -> keeps wanders m.
Proof.
  intros Hd.
  destruct h, r as [[v | l | u] | e]; cbn in Hd; simplify_eq;
    unfold_loops; unfold_handlers; unfold_calls; frame wanders_leaf.
Qed.

Lemma submit_wanders (s : Script) (name : option string) : keeps wanders (on_submit s name).
Proof.
  destruct s; unfold on_submit; unfold_handlers; unfold_calls; frame wanders_leaf.
Qed.

Lemma ready_wanders (s : Script) : keeps wanders (ready s).
Proof.
  destruct s; unfold ready; unfold_handlers; unfold_calls; frame wanders_leaf.
Qed.

Lemma step_wanders (st : Browser) (ev : Event) : wanders st (step st ev).
Proof.
  assert (Hother : forall ev', (forall p, ev' <> Load p) -> wanders st (step st ev')).
  { intros ev' Hload. apply step_keeps; try exact _; try assumption.
    - intros; wanders_leaf.
    - intros ? [ | ]; cbn [step]; unfold Index.sendSignUp, Index.sendLogin; unfold_calls;
        wanders_leaf.
    - intros; apply submit_wanders.
    - intros; wanders_leaf.
    - intros; eapply callbacks_wander; eassumption. }
  destruct ev as [p | | | | ]; try (apply Hother; discriminate).
  apply (ready_wanders (script_of p) (fresh_page p (cookies st) (href st))).
Qed.

(** X8: the scripts navigate to three addresses only.  Whatever the events,
    the address of the window is the one it started with or one of
    [sign-up.html], [login.html] and [teacher-dash.html]. *)
Theorem navigation_is_closed (st : Browser) (evs : list Event) :
  href (run st evs) = href st \/ In (href (run st evs)) destinations.
Proof.
  change (wanders st (run st evs)). revert st.
  induction evs as [ | ev evs IH]; intros st; [reflexivity | ].
  cbn [run foldl]. etransitivity; [apply step_wanders | apply IH].
Qed.

(** ** Submissions *)

Lemma literal_keys (fields : list (string * jsval)) (k : string) :
  k ∈ map fst (literal fields) -> k ∈ map fst fields.
Proof.
  induction fields as [ | [k' [v | ]] r IH]; cbn [literal map fst]; intros Hk.
  - exact Hk.
  - apply elem_of_cons in Hk as [-> | Hk]; [left | right; auto].
  - right. auto.
Qed.

(** An object literal with distinct keys and well-formed members is
    well-formed. *)
Lemma literal_wf (fields : list (string * jsval)) :
  NoDup (map fst fields) ->
  Forall (fun kv => from_option Json.wf True (snd kv)) fields ->
  Json.wf (JObj (literal fields)).
Proof.
  intros Hnd Hwf. apply JsonFacts.wf_obj. split.
  - induction fields as [ | [k [v | ]] r IH]; cbn [literal map fst] in *.
    + constructor.
    + apply NoDup_cons in Hnd as [Hk Hnd]. apply Forall_cons in Hwf as [_ Hwf].
      apply NoDup_cons. split; [ | now apply IH].
      intros Hin. apply Hk. now apply literal_keys.
    + apply NoDup_cons in Hnd as [_ Hnd]. apply Forall_cons in Hwf as [_ Hwf].
      now apply IH.
  - clear Hnd. induction Hwf as [ | [k [v | ]] r Hv _ IH]; cbn [literal].
    + constructor.
    + constructor; [exact Hv | exact IH].
    + exact IH.
Qed.

Lemma typed_wf (o : option string) : from_option Json.wf True (JStr <$> o).
Proof. destruct o; exact I. Qed.

Lemma signup_fields_wf (st : Browser) : Json.wf (JObj (literal (signup_fields st))).
Proof.
  apply literal_wf.
  - apply (bool_decide_unpack _). vm_compute. reflexivity.
  - unfold signup_fields. repeat (apply Forall_cons; split; [apply typed_wf | ]).
    apply Forall_cons. split; [ | constructor].
    cbn. repeat split. apply (bool_decide_unpack _). vm_compute. reflexivity.
Qed.

Lemma login_fields_wf (st : Browser) : Json.wf (JObj (literal (login_fields st))).
Proof.
  apply literal_wf.
  - apply (bool_decide_unpack _). vm_compute. reflexivity.
  - unfold login_fields. repeat (apply Forall_cons; split; [apply typed_wf | ]). constructor.
Qed.

(** X12: the bodies of the sign-up and login requests parse back to what
    the user typed.  On a page where [index.js] listens, submitting either
    form adds one pending request whose body is a JSON text of the object
    of the form fields, the fields the page does not hold left out. *)
Theorem submitted_bodies_parse_back (st : Browser) :
  listening st = Some index_js ->
  (exists c d,
     calls (step st (Submit (Some "signup"))) = (calls st ++ [c])%list /\
     type (request c) = "POST" /\ url (request c) = "/api/users" /\
     settled c = None /\ data (request c) = Some d /\
     Json.parse d = Some (JObj (literal (signup_fields st)))) /\
  (exists c d,
     calls (step st (Submit (Some "login"))) = (calls st ++ [c])%list /\
     type (request c) = "POST" /\ url (request c) = "/api/auth/login" /\
     settled c = None /\ data (request c) = Some d /\
     Json.parse d = Some (JObj (literal (login_fields st)))).
Proof.
  intros Hl. split; cbn [step]; rewrite Hl; cbn [on_submit]; run_handler;
    eexists _, _; (split; [reflexivity | ]); cbn [request type url settled data];
    repeat (split; [reflexivity | ]).
  - apply JsonFacts.parse_stringify, signup_fields_wf.
  - apply JsonFacts.parse_stringify, login_fields_wf.
Qed.

Lemma submitted_bodies_parse_back_witness :
  exists c d,
    calls (run (fresh_page index_page ∅ "sign-up.html")
               [Load index_page; Input "#username" "alice"; Input "#password" "pw";
                Submit (Some "signup")]) = [c] /\
    data (request c) = Some d /\
    Json.parse d = Some (JObj [("username", JStr "alice"); ("password", JStr "pw");
                               ("Assignments",
                                JArr [JObj [("assignmentName", JStr "");
                                            ("assignmentDate", JStr "")]])]).
Proof.
  destruct (submitted_bodies_parse_back
              (run (fresh_page index_page ∅ "sign-up.html")
                   [Load index_page; Input "#username" "alice"; Input "#password" "pw"]))
    as [(c & d & Hc & _ & _ & _ & Hd & Hp) _]; [reflexivity | ].
  exists c, d. split; [exact Hc | split; [exact Hd | exact Hp]].
Defined.

Lemma strict_eq_name (name : option string) (n : string) :
  strict_eq (JStr <$> name) (Some (JStr n)) = true <-> name = Some n.
Proof.
  destruct name as [m | ]; cbn; [ | split; discriminate].
  rewrite String.eqb_eq. split; congruence.
Qed.

Ltac sent_one n :=
  repeat (split; [first [reflexivity | assumption] | ]);
  eexists [_]; split; [reflexivity | ];
  split; [cbn; lia | ];
  split; [repeat constructor | intros _; exists n; split; [reflexivity | cbn; tauto]].

Ltac sent_none :=
  repeat (split; [first [reflexivity | assumption] | ]);
  exists []; split; [symmetry; apply app_nil_r | ];
  split; [cbn; lia | ];
  split; [constructor | intros Hne; now destruct Hne].

(** What the submit handlers do to the page state. *)
Lemma submit_only_sends (st : Browser) (name : option string) :
  APP (step st (Submit name)) = APP st /\
  cookies (step st (Submit name)) = cookies st /\
  dom (step st (Submit name)) = dom st /\
  href (step st (Submit name)) = href st /\
  listening (step st (Submit name)) = listening st /\
  exists news,
    calls (step st (Submit name)) = (calls st ++ news)%list /\
    length news <= 1 /\
    Forall (fun c => settled c = None) news /\
    (news <> [] -> exists n, name = Some n /\ In n forms).
Proof.
  cbn [step]. destruct (listening st) as [[ | ] | ] eqn:Hl; [ | | sent_none].
  - unfold on_submit, Index.submit. cbv zeta.
    destruct (strict_eq (JStr <$> name) (Some (JStr "signup"))) eqn:E1;
      [apply strict_eq_name in E1 as -> | ].
    { run_handler. sent_one "signup". }
    destruct (strict_eq (JStr <$> name) (Some (JStr "login"))) eqn:E2;
      [apply strict_eq_name in E2 as -> | ].
    { run_handler. sent_one "login". }
    destruct (strict_eq (JStr <$> name) (Some (JStr "js-assignment-list-form"))) eqn:E3;
      [apply strict_eq_name in E3 as -> | ].
    { run_handler. sent_one "js-assignment-list-form". }
    destruct (strict_eq (JStr <$> name) (Some (JStr "list-items"))) eqn:E4;
      run_handler; rewrite ?E1, ?E2, ?E3, ?E4; reduce_state; sent_none.
  - unfold on_submit, DashTeacher.submit.
    destruct (strict_eq (JStr <$> name) (Some (JStr "js-assignment-list-form"))) eqn:E3;
      [apply strict_eq_name in E3 as -> | ].
    { run_handler. sent_one "js-assignment-list-form". }
    run_handler. sent_none.
Qed.

(** X10: what a submission does, on either page.  It adds at most one
    request, which is pending, and none unless the form is one of [signup],
    [login] and [js-assignment-list-form]; on the teacher dashboard it
    registers one more click handler for the delete buttons, whatever the
    form, and on the page of [index.js] none; the session, the cookie jar,
    the page content, the address, the submit handler and the alerts raised
    so far stay as they are. *)
Theorem submission_frame (t : TeacherDash) (name : option string) :
  let t' := teacher_step t (PageEvent (Submit name)) in
  APP (page t') = APP (page t) /\
  cookies (page t') = cookies (page t) /\
  dom (page t') = dom (page t) /\
  href (page t') = href (page t) /\
  listening (page t') = listening (page t) /\
  alerts t' = alerts t /\
  (listening (page t) = Some dash_teacher_js ->
   delete_handlers t' = S (delete_handlers t)) /\
  (listening (page t) <> Some dash_teacher_js ->
   delete_handlers t' = delete_handlers t) /\
  exists news,
    calls (page t') = (calls (page t) ++ news)%list /\
    length news <= 1 /\
    Forall (fun c => settled c = None) news /\
    (news <> [] -> exists n, name = Some n /\ In n forms).
Proof.
  cbv zeta. cbn [teacher_step page alerts delete_handlers registered].
  destruct (submit_only_sends (page t) name) as (H1 & H2 & H3 & H4 & H5 & H6).
  repeat (split; [assumption || reflexivity | ]).
  split; [ | split; [ | exact H6]].
  - intros ->. reflexivity.
  - intros Hl. destruct (listening (page t)) as [[ | ] | ]; [reflexivity | | reflexivity].
    now destruct Hl.
Qed.

(** ** The requests the scripts make *)

#[local] Instance sends_known_refl : Reflexive sends_known.
Proof. intros st. exists []. split; [symmetry; apply app_nil_r | constructor]. Qed.

#[local] Instance sends_known_trans : Transitive sends_known.
Proof.
  intros a b c (n1 & H1 & F1) (n2 & H2 & F2). exists (n1 ++ n2)%list. split.
  - rewrite H2, H1. symmetry. apply app_assoc.
  - apply Forall_app. split; assumption.
Qed.

Lemma requests_settle (n : nat) (r : Response) (cs : list Call) :
  map request (alter (answer r) n cs) = map request cs.
Proof.
  revert n. induction cs as [ | c cs IH]; intros [ | n]; cbn; try reflexivity.
  f_equal. apply IH.
Qed.

Ltac endpoint_leaf :=
  unfold endpoint; cbn [request type url];
  first [ left; split; reflexivity
        | right; left; split; reflexivity
        | right; right; left; split; reflexivity
        | right; right; right; left; split; reflexivity
        | right; right; right; right; left; split; reflexivity
        | right; right; right; right; right; split; [reflexivity | eexists; reflexivity] ].

Ltac known_leaf :=
  unfold sends_known; reduce_state;
  first [ exists []; split; [symmetry; apply app_nil_r | constructor]
        | rewrite map_app; eexists; split; [reflexivity | ]; cbn [map];
          apply Forall_cons; split; [endpoint_leaf | constructor] ].

Lemma callbacks_send_known (h : Handler) (r : Response) (m : M unit) :
  deliver h r = Some m -> keeps sends_known m.
Proof.
  intros Hd.
  destruct h, r as [[v | l | u] | e]; cbn in Hd; simplify_eq;
    unfold_loops; unfold_handlers; unfold_calls; frame known_leaf.
Qed.

Lemma submit_sends_known (s : Script) (name : option string) :
  keeps sends_known (on_submit s name).
Proof.
  destruct s; unfold on_submit; unfold_handlers; unfold_calls; frame known_leaf.
Qed.

Lemma ready_sends_known (s : Script) : keeps sends_known (ready s).
Proof.
  destruct s; unfold ready; unfold_handlers; unfold_calls; frame known_leaf.
Qed.

Lemma step_sends_known (st : Browser) (ev : Event) :
  Forall endpoint (map request (calls st)) ->
  Forall endpoint (map request (calls (step st ev))).
Proof.
  intros Hst.
  assert (Hother : forall ev', (forall p, ev' <> Load p) -> sends_known st (step st ev')).
  { intros ev' Hload. apply step_keeps; try exact _; try assumption.
    - intros; known_leaf.
    - intros ? [ | ]; cbn [step]; unfold Index.sendSignUp, Index.sendLogin; unfold_calls;
        known_leaf.
    - intros; apply submit_sends_known.
    - intros s n r. exists []. unfold settle. reduce_state.
      rewrite requests_settle. split; [symmetry; apply app_nil_r | constructor].
    - intros; eapply callbacks_send_known; eassumption. }
  destruct ev as [p | sel v | b | name | n r].
  - destruct (ready_sends_known (script_of p) (fresh_page p (cookies st) (href st)))
      as (news & Hn & Hf).
    cbn [step]. unfold exec. rewrite Hn. exact Hf.
  - destruct (Hother (Input sel v)) as (news & -> & Hf); [discriminate | ].
    apply Forall_app; split; assumption.
  - destruct (Hother (Click b)) as (news & -> & Hf); [discriminate | ].
    apply Forall_app; split; assumption.
  - destruct (Hother (Submit name)) as (news & -> & Hf); [discriminate | ].
    apply Forall_app; split; assumption.
  - destruct (Hother (Reply n r)) as (news & -> & Hf); [discriminate | ].
    apply Forall_app; split; assumption.
Qed.

(** X13: the scripts talk to five endpoints.  On a page fetched afresh,
    whatever the events, every request made is [POST /api/users],
    [POST /api/auth/login], [GET /api/users], [GET /api/users/],
    [GET /api/protected] or a [POST] to an address under [/api/users/];
    none is a [PUT] or a [DELETE]. *)
Theorem requests_are_known (p : Page) (jar : gmap string string) (address : string)
    (evs : list Event) :
  Forall (fun c => endpoint (request c) /\
                   type (request c) <> "PUT" /\ type (request c) <> "DELETE")
         (calls (run (fresh_page p jar address) evs)).
Proof.
  assert (Hall : Forall endpoint (map request (calls (run (fresh_page p jar address) evs)))).
  { assert (H0 : Forall endpoint (map request (calls (fresh_page p jar address))))
      by constructor.
    revert H0. generalize (fresh_page p jar address).
    induction evs as [ | ev evs IH]; intros st Hst; [exact Hst | ].
    cbn [run foldl]. apply IH. now apply step_sends_known. }
  rewrite Forall_forall in Hall. apply Forall_forall. intros c Hin.
  assert (He : endpoint (request c)) by now apply Hall, list_elem_of_fmap_2.
  split; [exact He | ].
  destruct He as [[Ht _] | [[Ht _] | [[Ht _] | [[Ht _] | [[Ht _] | [Ht _]]]]]];
    rewrite Ht; split; discriminate.
Qed.

(** ** The teacher dashboard without [APP.LOGIN_INFO] *)

#[local] Instance stays_logged_out_refl : Reflexive stays_logged_out.
Proof. intros st H. exact H. Qed.

#[local] Instance stays_logged_out_trans : Transitive stays_logged_out.
Proof. intros a b c Hab Hbc H. apply Hbc, Hab, H. Qed.

Ltac logged_out_leaf :=
  unfold stays_logged_out, logged_out; intros [? ?]; reduce_state;
  split; [assumption | ];
  first [ assumption
        | apply Forall_app; split; [assumption | ];
          apply Forall_cons; split; [cbn; discriminate | constructor] ].

Lemma teacher_studentUsers_stays_logged_out (l : list User) :
  keeps stays_logged_out (DashTeacher.studentUsers_cb l).
Proof.
  intros st [Hinfo Hcalls].
  rewrite (teacher_studentUsers_throws l st TypeError); [split; assumption | ].
  rewrite Hinfo. reflexivity.
Qed.

Lemma callbacks_stay_logged_out (h : Handler) (r : Response) (m : M unit) :
  deliver h r = Some m -> keeps stays_logged_out m.
Proof.
  intros Hd.
  destruct h, r as [[v | l | u] | e]; cbn in Hd; simplify_eq;
    first [ apply teacher_studentUsers_stays_logged_out
          | unfold_loops; unfold_handlers; unfold_calls; frame logged_out_leaf ].
Qed.

Lemma submit_stays_logged_out (s : Script) (name : option string) :
  keeps stays_logged_out (on_submit s name).
Proof.
  destruct s; unfold on_submit; unfold_handlers; unfold_calls; frame logged_out_leaf.
Qed.

Lemma ready_stays_logged_out (s : Script) : keeps stays_logged_out (ready s).
Proof.
  destruct s; unfold ready; unfold_handlers; unfold_calls; frame logged_out_leaf.
Qed.

Lemma step_stays_logged_out (st : Browser) (ev : Event) :
  defines_no_login_info ev -> logged_out st -> logged_out (step st ev).
Proof.
  intros Hev Hst.
  assert (Hother : forall ev', (forall p, ev' <> Load p) -> stays_logged_out st (step st ev')).
  { intros ev' Hload. apply step_keeps; try exact _; try assumption.
    - intros; logged_out_leaf.
    - intros ? [ | ]; cbn [step]; unfold Index.sendSignUp, Index.sendLogin; unfold_calls;
        logged_out_leaf.
    - intros; apply submit_stays_logged_out.
    - intros s n r [Hinfo Hcalls]. split; [exact Hinfo | ].
      unfold settle. reduce_state. apply Forall_alter; [exact Hcalls | ].
      intros c _ Hc. exact Hc.
    - intros; eapply callbacks_stay_logged_out; eassumption. }
  destruct ev as [p | | | | ]; try (apply Hother; [discriminate | exact Hst]).
  apply (ready_stays_logged_out (script_of p) (fresh_page p (cookies st) (href st))).
  split; [ | constructor].
  destruct p as [ | info]; [reflexivity | ]. cbn. now apply (Hev info).
Qed.

(** X4: nothing in the scripts defines [APP.LOGIN_INFO], and without it the
    teacher dashboard creates no assignment.  Starting where it is
    [undefined] and no assignment-creating request of [dash-teacher.js] has
    been made, through any events that load no page defining it, it stays
    [undefined] and no such request is ever made. *)
Theorem no_assignment_without_login_info (st : Browser) (evs : list Event) :
  Forall defines_no_login_info evs ->
  logged_out st ->
  LOGIN_INFO (APP (run st evs)) = None /\
  Forall (fun c => handler c <> teacher_createList) (calls (run st evs)).
Proof.
  intros Hevs. revert st.
  induction Hevs as [ | ev evs Hev _ IH]; intros st Hst; [exact Hst | ].
  cbn [run foldl]. apply IH. now apply step_stays_logged_out.
Qed.

Lemma no_assignment_without_login_info_witness :
  Forall (fun c => handler c <> teacher_createList)
         (calls (run (fresh_page (teacher_dash_page None) ∅ "teacher-dash.html")
                     [Load (teacher_dash_page None); Input "#username" "alice";
                      Submit (Some "js-assignment-list-form");
                      Reply 1 (Success (BUsers [teacher; alice]))])).
Proof.
  apply no_assignment_without_login_info.
  - repeat constructor; intros info H; try discriminate H. now injection H as <-.
  - split; [reflexivity | constructor].
Defined.

(** ** The delete buttons of the teacher dashboard *)

Ltac listening_leaf := unfold same_listening; reduce_state; reflexivity.

Lemma callbacks_keep_listening (h : Handler) (r : Response) (m : M unit) :
  deliver h r = Some m -> keeps same_listening m.
Proof.
  intros Hd.
  destruct h, r as [[v | l | u] | e]; cbn in Hd; simplify_eq;
    unfold_loops; unfold_handlers; unfold_calls; frame listening_leaf.
Qed.

Lemma submit_keeps_listening (s : Script) (name : option string) :
  keeps same_listening (on_submit s name).
Proof.
  destruct s; unfold on_submit; unfold_handlers; unfold_calls; frame listening_leaf.
Qed.

(** Only a page load registers or drops the submit handler. *)
Lemma step_keeps_listening (st : Browser) (ev : Event) :
  (forall p, ev <> Load p) -> listening (step st ev) = listening st.
Proof.
  intros Hload. change (same_listening st (step st ev)).
  apply step_keeps; try exact _; try assumption.
  - intros; listening_leaf.
  - intros ? [ | ]; cbn [step]; unfold Index.sendSignUp, Index.sendLogin; unfold_calls;
      listening_leaf.
  - intros; apply submit_keeps_listening.
  - intros; listening_leaf.
  - intros; eapply callbacks_keep_listening; eassumption.
Qed.

Lemma teacher_load_listening (st : Browser) (info : jsval) :
  listening (step st (Load (teacher_dash_page info))) = Some dash_teacher_js.
Proof. reflexivity. Qed.

Lemma teacher_run_counts (t : TeacherDash) (es : list TeacherEvent) :
  Forall stays_on_page es ->
  listening (page t) = Some dash_teacher_js ->
  listening (page (teacher_run t es)) = Some dash_teacher_js /\
  delete_handlers (teacher_run t es) = delete_handlers t + submissions es /\
  exists k, alerts (teacher_run t es) = (alerts t ++ replicate k "yay")%list.
Proof.
  intros Hes. revert t.
  induction Hes as [ | e es He _ IH]; intros t Hl.
  - cbn. split; [exact Hl | split; [lia | ]]. exists 0. symmetry. apply app_nil_r.
  - cbn [teacher_run foldl]. fold (teacher_run (teacher_step t e) es).
    destruct e as [ev | ].
    + assert (Hl' : listening (page (teacher_step t (PageEvent ev))) = Some dash_teacher_js).
      { cbn [teacher_step page]. rewrite step_keeps_listening; [exact Hl | ].
        intros p ->. now apply (He p). }
      destruct (IH _ Hl') as (H1 & H2 & k & H3).
      split; [exact H1 | split; [ | exists k; exact H3]].
      rewrite H2. unfold submissions. cbn [teacher_step delete_handlers].
      destruct ev as [p | | | | ]; cbn [registered List.filter is_submission length];
        try lia.
      * now destruct (He p).
      * rewrite Hl. lia.
    + destruct (IH (teacher_step t ClickDelete) Hl) as (H1 & H2 & k & H3).
      split; [exact H1 | split; [exact H2 | ]].
      exists (delete_handlers t + k). rewrite H3. cbn [teacher_step alerts].
      rewrite <- app_assoc, replicate_add. reflexivity.
Qed.

(** X11: the alerts of a delete button pile up.  On the teacher dashboard
    every submission, of whatever form, registers one more click handler
    for the delete buttons and nothing but a page load removes any: after
    the load and any events that fetch no page, a click on a delete button
    raises as many alerts as forms have been submitted since the load, none
    before the first submission. *)
Theorem delete_alerts_accumulate (t : TeacherDash) (info : jsval) (es : list TeacherEvent) :
  Forall stays_on_page es ->
  delete_handlers (teacher_run t (PageEvent (Load (teacher_dash_page info)) :: es))
  = submissions es /\
  alerts (teacher_run t (PageEvent (Load (teacher_dash_page info)) :: es ++ [ClickDelete]))
  = (alerts (teacher_run t (PageEvent (Load (teacher_dash_page info)) :: es))
     ++ replicate (submissions es) "yay")%list.
Proof.
  intros Hes. cbn [teacher_run foldl].
  destruct (teacher_run_counts
              (teacher_step t (PageEvent (Load (teacher_dash_page info)))) es Hes)
    as (_ & H2 & _); [reflexivity | ].
  unfold teacher_run in H2. change (0 + submissions es) with (submissions es) in H2.
  split; [exact H2 | ].
  rewrite foldl_app. generalize dependent (foldl teacher_step
    (teacher_step t (PageEvent (Load (teacher_dash_page info)))) es).
  intros t' H. cbn [foldl teacher_step alerts]. rewrite H. reflexivity.
Qed.

Lemma delete_alerts_accumulate_witness :
  alerts (teacher_run {| page := fresh_page (teacher_dash_page None) ∅ "teacher-dash.html";
                         delete_handlers := 0; alerts := [] |}
            (PageEvent (Load (teacher_dash_page None))
             :: [PageEvent (Submit (Some "js-assignment-list-form")); ClickDelete;
                 PageEvent (Submit None)] ++ [ClickDelete]))
  = ["yay"; "yay"; "yay"].
Proof.
  destruct (delete_alerts_accumulate
              {| page := fresh_page (teacher_dash_page None) ∅ "teacher-dash.html";
                 delete_handlers := 0; alerts := [] |}
              None
              [PageEvent (Submit (Some "js-assignment-list-form")); ClickDelete;
               PageEvent (Submit None)]) as [_ H].
  - repeat constructor; intros p Hp; discriminate Hp.
  - rewrite H. reflexivity.
Defined.

(** ** A sign-up that fails without a JSON object *)

(** X14: the error callback of the sign-up request needs a response body.
    When the failed response carries no JSON, or [null], the callback
    throws at [err.responseJSON.message] and the page shows nothing: the
    request is settled and the state is otherwise as it was.  When the body
    is JSON but not an object, both messages read [undefined] and nothing
    is hidden or shown. *)
Theorem signup_failure_without_object (st : Browser) (n : nat) (c : Call) (err : Xhr) :
  calls st !! n = Some c ->
  settled c = None ->
  handler c = signUp_success ->
  (responseJSON err = None \/ responseJSON err = Some JNull ->
   step st (Reply n (Failure err)) = settle n (Failure err) st) /\
  (forall v,
     responseJSON err = Some v -> v <> JNull -> (forall m, v <> JObj m) ->
     children ".js-errorsUser" (step st (Reply n (Failure err))) = ["Username undefined!"] /\
     children ".js-errorsPass" (step st (Reply n (Failure err))) = ["Password undefined!"] /\
     hidden (dom (step st (Reply n (Failure err)))) = hidden (dom st)).
Proof.
  intros Hc Hs Hh. split.
  - intros Hbody. cbn [step]. rewrite Hc, Hs, Hh. cbn [deliver].
    run_handler. destruct Hbody as [-> | ->]; reflexivity.
  - intros v Hbody Hnull Hobj. cbn [step]. rewrite Hc, Hs, Hh. cbn [deliver].
    unfold children. run_handler. rewrite Hbody.
    destruct v as [ | b | z | s | l | m];
      [now destruct Hnull | | | | | now destruct (Hobj m)];
      cbn [get_prop_of get_prop strict_eq]; reduce_state;
      (split; [now simplify_map_eq | split; [now simplify_map_eq | reflexivity]]).
Qed.

Lemma signup_failure_without_object_witness :
  let st := run (fresh_page index_page ∅ "sign-up.html")
                [Load index_page; Input "#username" "alice"; Submit (Some "signup")] in
  step st (Reply 0 (Failure {| status := 0; responseJSON := None |}))
  = settle 0 (Failure {| status := 0; responseJSON := None |}) st.
Proof.
  cbv zeta.
  destruct (calls (run (fresh_page index_page ∅ "sign-up.html")
                       [Load index_page; Input "#username" "alice"; Submit (Some "signup")])
            !! 0) as [c | ] eqn:Hc; [ | vm_compute in Hc; discriminate Hc].
  pose proof Hc as Hc'. vm_compute in Hc'. injection Hc' as <-.
  apply (signup_failure_without_object _ 0 _ {| status := 0; responseJSON := None |} Hc);
    [reflexivity | reflexivity | left; reflexivity].
Defined.
